(** * PDFConvert-FireflyCSV: the bank statement converter and its HTTP front end

    A shallow embedding of [converter.py] (class [BankStatementConverter] and
    the command [main]) and of the handlers of [api_server.py], followed by
    the properties of the specification that were checked against it and by
    further properties of the code.

    Modelling conventions.
    - A Python [str] is a [string] of bytes (UTF-8).  The character classes
      used by [str.strip], [str.lower], [float] and the pattern [\d] are the
      ASCII ones, while Python's cover all of Unicode (the no-break space is
      white space, a Thai digit is a digit).  The two agree on texts made of
      ASCII characters and Baht signs, [plain_text] below: the statements
      that depend on which characters are stripped or read as digits are
      made for such texts.
    - A Python [float] is a binary64 number, [spec_float] of the Standard
      Library with precision 53 and maximal exponent 1024; [float(text)] and
      [repr(x)] are correctly rounded, as in CPython.
    - The frames are those of pandas 2: columns of Python objects, in which
      a missing cell stays [None].
    - Exceptions are values: a computation that may raise returns [result].
    - A file is held by what it parses to; the file system is a finite map
      from paths to such contents. *)

From Stdlib Require Import ZArith NArith List String Ascii Bool Lia.
From Stdlib Require Import SpecFloat DecimalString.
From stdpp Require Import base option strings gmap.

Import ListNotations.
Local Open Scope string_scope.
Local Open Scope list_scope.

(** ** Exceptions and the error monad *)

Inductive exn : Type :=
| ValueError (msg : string)
| IOError (msg : string).

Definition exn_str (e : exn) : string :=
  match e with
  | ValueError m => m
  | IOError m => m
  end.

Inductive result (A : Type) : Type :=
| Ok (a : A)
| Raise (e : exn).

Arguments Ok {A} a.
Arguments Raise {A} e.

#[global] Instance result_ret : MRet result := fun _ a => Ok a.

#[global] Instance result_bind : MBind result := fun _ _ k r =>
  match r with
  | Ok a => k a
  | Raise e => Raise e
  end.

(** ** Python strings *)

Module PyStr.

Definition code (c : ascii) : nat := nat_of_ascii c.

Definition between (lo hi : nat) (c : ascii) : bool :=
  (lo <=? code c)%nat && (code c <=? hi)%nat.

(** [c.isspace()] on the ASCII range: TAB..CR, FS..US and the blank.  The
    white space Python knows outside ASCII (the no-break space and others)
    is not stripped here. *)
Definition is_space (c : ascii) : bool := between 9 13 c || between 28 32 c.

(** The digits [0]..[9]; Python's [\d] and [float] also take the decimal
    digits of other scripts. *)
Definition is_digit (c : ascii) : bool := between 48 57 c.

Definition is_upper (c : ascii) : bool := between 65 90 c.

Definition lower_char (c : ascii) : ascii :=
  if is_upper c then ascii_of_nat (code c + 32) else c.

Fixpoint lower (s : string) : string :=
  match s with
  | EmptyString => EmptyString
  | String c s' => String (lower_char c) (lower s')
  end.

Fixpoint lstrip (s : string) : string :=
  match s with
  | EmptyString => EmptyString
  | String c s' => if is_space c then lstrip s' else s
  end.

Fixpoint rstrip (s : string) : string :=
  match s with
  | EmptyString => EmptyString
  | String c s' =>
      match rstrip s' with
      | EmptyString => if is_space c then EmptyString else String c EmptyString
      | t => String c t
      end
  end.

Definition strip (s : string) : string := lstrip (rstrip s).

Definition startswith (s p : string) : bool := String.prefix p s.

Fixpoint endswith (s p : string) : bool :=
  String.eqb s p ||
  match s with
  | EmptyString => false
  | String _ s' => endswith s' p
  end.

(** [p in s] *)
Fixpoint contains (p s : string) : bool :=
  String.prefix p s ||
  match s with
  | EmptyString => false
  | String _ s' => contains p s'
  end.

(** [s.replace(old, '')] for a non-empty [old]: the occurrences are taken
    from the left and do not overlap; [skip] counts the characters of the
    occurrence being dropped. *)
Fixpoint remove_from (old : string) (skip : nat) (s : string) : string :=
  match s with
  | EmptyString => EmptyString
  | String c s' =>
      match skip with
      | S k => remove_from old k s'
      | O =>
          if String.prefix old s
          then remove_from old (String.length old - 1) s'
          else String c (remove_from old 0 s')
      end
  end.

Definition remove (old s : string) : string := remove_from old 0 s.

Definition truthy (s : string) : bool :=
  match s with
  | EmptyString => false
  | String _ _ => true
  end.

(** [s[:n]] and [s[n:]] *)
Fixpoint take (n : nat) (s : string) : string :=
  match n, s with
  | S m, String c s' => String c (take m s')
  | _, _ => EmptyString
  end.

Fixpoint drop (n : nat) (s : string) : string :=
  match n, s with
  | S m, String _ s' => drop m s'
  | _, _ => s
  end.

Definition of_nat (n : nat) : string := NilEmpty.string_of_uint (Nat.to_uint n).

Definition of_Z (z : Z) : string := NilZero.string_of_int (Z.to_int z).

End PyStr.

(** ** Python floats *)

Module PyFloat.

Definition prec : Z := 53.
Definition emax : Z := 1024.

Definition truthy (x : spec_float) : bool :=
  match x with
  | S754_zero _ => false
  | _ => true
  end.

Definition is_nan (x : spec_float) : bool :=
  match x with
  | S754_nan => true
  | _ => false
  end.

Definition eqb (x y : spec_float) : bool :=
  match x, y with
  | S754_zero a, S754_zero b => Bool.eqb a b
  | S754_infinity a, S754_infinity b => Bool.eqb a b
  | S754_nan, S754_nan => true
  | S754_finite a m e, S754_finite b n f =>
      Bool.eqb a b && Pos.eqb m n && Z.eqb e f
  | _, _ => false
  end.

(** The binary64 number nearest to [c * 10^k] (ties to even), for [c >= 0]:
    what [float] returns on a decimal numeral of that value. *)
Definition of_decimal (c : N) (k : Z) : spec_float :=
  match c with
  | N0 => S754_zero false
  | Npos p =>
      let num := Z.to_pos (Zpos p * 10 ^ Z.max k 0) in
      let den := Z.to_pos (10 ^ Z.max (- k) 0) in
      SFdiv prec emax (S754_finite false num 0) (S754_finite false den 0)
  end.

Definition digit_value (c : ascii) : N := N.of_nat (PyStr.code c - 48).

(** Reads a numeral made of the digits [0]..[9] and at most one point.
    [acc] is the value of the digits read so far, [frac] the number of them
    behind the point, [ndig] their number. *)
Fixpoint scan (s : string) (dot : bool) (acc : N) (frac ndig : nat)
  : option (N * nat) :=
  match s with
  | EmptyString => if (ndig =? 0)%nat then None else Some (acc, frac)
  | String c s' =>
      if PyStr.is_digit c
      then scan s' dot (acc * 10 + digit_value c)%N
                (if dot then S frac else frac) (S ndig)
      else if Ascii.eqb c "."
           then if dot then None else scan s' true acc frac ndig
           else None
  end.

(** [float(g)] for a text [g] of digits and points, the only texts the
    converter passes to it. *)
Definition of_text (g : string) : result spec_float :=
  match scan g false 0%N 0%nat 0%nat with
  | Some (c, frac) => Ok (of_decimal c (- Z.of_nat frac))
  | None =>
      Raise (ValueError ("could not convert string to float: '" +:+ g +:+ "'"))
  end.

(** *** [repr]: the shortest numeral that reads back as the same number *)

(** [floor (num / den / 10^k)] *)
Definition floor_scaled (num den k : Z) : Z :=
  if (0 <=? k)%Z then (num / (den * 10 ^ k))%Z
  else ((num * 10 ^ (- k)) / den)%Z.

(** The largest [E] from [E0] on with [10^E <= num / den]. *)
Fixpoint decimal_exponent (fuel : nat) (E num den : Z) : Z :=
  match fuel with
  | O => E
  | S f =>
      if (1 <=? floor_scaled num den (E + 1))%Z
      then decimal_exponent f (E + 1)%Z num den
      else E
  end.

(** Tries [n], [n+1], ... significant digits; returns the digits as an
    integer [d] and the exponent [k] of the numeral [d * 10^k]. *)
Fixpoint shortest (fuel : nat) (n : Z) (x : spec_float) (E num den : Z)
  : Z * Z :=
  let k := (E - n + 1)%Z in
  let lo := floor_scaled num den k in
  let hi := (lo + 1)%Z in
  match fuel with
  | O => (lo, k)
  | S f =>
      let ok_lo := eqb (of_decimal (Z.to_N lo) k) x in
      let ok_hi := eqb (of_decimal (Z.to_N hi) k) x in
      (* the side of x on which the middle of lo and hi lies *)
      let side :=
        if (0 <=? k)%Z
        then (2 * num ?= (2 * lo + 1) * 10 ^ k * den)%Z
        else (2 * num * 10 ^ (- k) ?= (2 * lo + 1) * den)%Z in
      match ok_lo, ok_hi with
      | true, true =>
          match side with
          | Lt => (lo, k)
          | Gt => (hi, k)
          | Eq => if Z.even lo then (lo, k) else (hi, k)
          end
      | true, false => (lo, k)
      | false, true => (hi, k)
      | false, false => shortest f (n + 1)%Z x E num den
      end
  end.

Fixpoint drop_zeros (fuel : nat) (d k : Z) : Z * Z :=
  match fuel with
  | O => (d, k)
  | S f =>
      if (d mod 10 =? 0)%Z then drop_zeros f (d / 10)%Z (k + 1)%Z else (d, k)
  end.

Fixpoint zeros (n : nat) : string :=
  match n with
  | O => EmptyString
  | S m => String "0" (zeros m)
  end.

Definition exponent_text (e : Z) : string :=
  let a := PyStr.of_Z (Z.abs e) in
  (if (e <? 0)%Z then "e-" else "e+") +:+
  (if (String.length a <? 2)%nat then "0" +:+ a else a).

(** The numeral [0.ds * 10^decpt] written as Python writes it. *)
Definition format (ds : string) (decpt : Z) : string :=
  let n := Z.of_nat (String.length ds) in
  if ((decpt <=? -4) || (16 <? decpt))%Z
  then PyStr.take 1 ds +:+
       (if (1 <? n)%Z then "." +:+ PyStr.drop 1 ds else EmptyString) +:+
       exponent_text (decpt - 1)
  else if (decpt <=? 0)%Z
  then "0." +:+ zeros (Z.to_nat (- decpt)) +:+ ds
  else if (n <=? decpt)%Z
  then ds +:+ zeros (Z.to_nat (decpt - n)) +:+ ".0"
  else PyStr.take (Z.to_nat decpt) ds +:+ "." +:+ PyStr.drop (Z.to_nat decpt) ds.

Definition repr_finite (m : positive) (e : Z) : string :=
  let num := (Zpos m * 2 ^ Z.max e 0)%Z in
  let den := (2 ^ Z.max (- e) 0)%Z in
  let E := decimal_exponent 640 (-324) num den in
  let '(d0, k0) := shortest 17 1 (S754_finite false m e) E num den in
  let '(d, k) := drop_zeros 400 d0 k0 in
  let ds := PyStr.of_Z d in
  format ds (Z.of_nat (String.length ds) + k).

Definition repr (x : spec_float) : string :=
  match x with
  | S754_zero s => if s then "-0.0" else "0.0"
  | S754_infinity s => if s then "-inf" else "inf"
  | S754_nan => "nan"
  | S754_finite s m e => (if s then "-" else "") +:+ repr_finite m e
  end.

End PyFloat.

(** ** Values handed around by the converter *)

(** A cell of an extracted table: a text, or [None]. *)
Definition cell : Type := option string.

Definition raw_row : Type := list cell.

(** The Python values that reach [parse_amount] and the row accessors.  A
    [PSeries] is what a pandas row returns for a label that several columns
    carry: the label, the cells of those columns, and the name of the row. *)
Inductive pyval : Type :=
| PNone
| PStr (s : string)
| PInt (z : Z)
| PFloat (x : spec_float)
| PSeries (label : string) (values : list cell) (name : nat).

Definition of_cell (c : cell) : pyval :=
  match c with
  | None => PNone
  | Some s => PStr s
  end.

(** [str(v)] for a value that is not a Series ([parse_amount] asks for the
    truth of its argument first, which raises for a Series). *)
Definition str_scalar (v : pyval) : string :=
  match v with
  | PNone => "None"
  | PStr s => s
  | PInt z => PyStr.of_Z z
  | PFloat x => PyFloat.repr x
  | PSeries _ _ _ => EmptyString
  end.

(** ** The pattern [[\d.]+] *)

Module Re.

Definition in_class (c : ascii) : bool := PyStr.is_digit c || Ascii.eqb c ".".

Fixpoint run (s : string) : string :=
  match s with
  | EmptyString => EmptyString
  | String c s' => if in_class c then String c (run s') else EmptyString
  end.

(** [re.search(r'[\d.]+', s)]: the group of the leftmost match, which is
    the longest run starting there; the digits are those of [PyStr.is_digit]. *)
Fixpoint search (s : string) : option string :=
  match s with
  | EmptyString => None
  | String c s' => if in_class c then Some (run s) else search s'
  end.

End Re.

(** ** The parts of pandas the converter uses *)

Module Pandas.

Definition series_truth_error : exn :=
  ValueError "The truth value of a Series is ambiguous. Use a.empty, a.bool(), a.item(), a.any() or a.all().".

(** [bool(v)] *)
Definition truth (v : pyval) : result bool :=
  match v with
  | PNone => Ok false
  | PStr s => Ok (PyStr.truthy s)
  | PInt z => Ok (negb (z =? 0)%Z)
  | PFloat x => Ok (PyFloat.truthy x)
  | PSeries _ _ _ => Raise series_truth_error
  end.

(** [pd.isna(v)] for a scalar *)
Definition isna (v : pyval) : bool :=
  match v with
  | PNone => true
  | PFloat x => PyFloat.is_nan x
  | _ => false
  end.

(** A frame of object columns: the column labels and, for every row, its
    index label and one cell per column. *)
Record DataFrame : Type := {
  columns : list cell;
  rows : list (nat * list cell)
}.

Definition width (data : list raw_row) : nat :=
  fold_right (fun r k => Nat.max (length r) k) 0%nat data.

Definition pad (k : nat) (r : raw_row) : list cell :=
  r ++ repeat None (k - length r).

Fixpoint number {A : Type} (i : nat) (l : list A) : list (nat * A) :=
  match l with
  | [] => []
  | a :: l' => (i, a) :: number (S i) l'
  end.

(** [pd.DataFrame(data, columns=cols)] for a list of lists: short rows are
    filled up with [None] to the longest one, and the number of labels has
    to be that length. *)
Definition make (data : list raw_row) (cols : raw_row) : result DataFrame :=
  match data with
  | [] => Ok {| columns := cols; rows := [] |}
  | _ :: _ =>
      let k := width data in
      if (k =? length cols)%nat
      then Ok {| columns := cols; rows := number 0 (map (pad k) data) |}
      else Raise (ValueError (PyStr.of_nat (length cols)
                              +:+ " columns passed, passed data had "
                              +:+ PyStr.of_nat k +:+ " columns"))
  end.

Definition is_none (c : cell) : bool :=
  match c with
  | None => true
  | Some _ => false
  end.

(** [df.dropna(how='all')] *)
Definition dropna_all (df : DataFrame) : DataFrame :=
  {| columns := columns df;
     rows := List.filter (fun r => negb (forallb is_none (snd r))) (rows df) |}.

Definition label_is (key : string) (l : cell) : bool :=
  match l with
  | Some s => String.eqb s key
  | None => false
  end.

(** The cells of the row under the columns labelled [key]. *)
Fixpoint select (key : string) (labels : list cell) (values : list cell)
  : list cell :=
  match labels, values with
  | l :: labels', v :: values' =>
      if label_is key l then v :: select key labels' values'
      else select key labels' values'
  | _, _ => []
  end.

(** [row.get(key, default)] on the row [name] of a frame with these
    labels. *)
Definition get (labels : list cell) (name : nat) (values : list cell)
               (key default : string) : pyval :=
  match select key labels values with
  | [] => PStr default
  | [c] => of_cell c
  | cs => PSeries key cs name
  end.

End Pandas.

(** ** converter.py *)

Definition baht : string :=
  String (ascii_of_nat 224) (String (ascii_of_nat 184) (String (ascii_of_nat 191) EmptyString)).

(** The text [parse_amount] searches: stripped, without currency signs and
    commas. *)
Definition clean_value (text : string) : string :=
  PyStr.remove "," (PyStr.remove baht (PyStr.remove "$" (PyStr.strip text))).

Definition amounts : Type := option spec_float * option spec_float.

(** [parse_amount] from the conversion to text on. *)
Definition parse_text (text : string) : result amounts :=
  let value := clean_value text in
  match Re.search value with
  | None => Ok (None, None)
  | Some group =>
      amount ← PyFloat.of_text group;
      let value_lower := PyStr.lower value in
      if PyStr.contains "dr" value_lower
         || PyStr.contains "withdrawal" value_lower
         || PyStr.startswith value "-"
      then Ok (Some amount, None)
      else if PyStr.contains "cr" value_lower
              || PyStr.contains "deposit" value_lower
              || PyStr.startswith value "+"
      then Ok (None, Some amount)
      else Ok (None, Some amount)
  end.

Definition parse_amount (withdrawal_deposit_value : pyval) : result amounts :=
  truthy ← Pandas.truth withdrawal_deposit_value;
  if negb (truthy : bool) || Pandas.isna withdrawal_deposit_value
  then Ok (None, None)
  else parse_text (str_scalar withdrawal_deposit_value).

(** A column of the output holds a number or the empty string. *)
Inductive field : Type :=
| FNum (x : spec_float)
| FEmpty.

Record OutputTransaction : Type := {
  Date : string;
  Description : string;
  Withdrawal : field;
  Deposit : field;
  Category : string;
  Notes : string
}.

(** [x if x else ''] *)
Definition amount_field (x : option spec_float) : field :=
  match x with
  | Some a => if PyFloat.truthy a then FNum a else FEmpty
  | None => FEmpty
  end.

Definition is_some {A : Type} (o : option A) : bool :=
  match o with
  | Some _ => true
  | None => false
  end.

Section CleanAndTransform.

(** pandas' rendering [str(series)] of a Series, given by its label, cells
    and name. *)
Variable series_str : string -> list cell -> nat -> string.

Definition py_str (v : pyval) : string :=
  match v with
  | PSeries label values name => series_str label values name
  | _ => str_scalar v
  end.

(** The body of the loop over [df.iterrows()]: [None] when the row is
    skipped. *)
Definition transform_row (labels : list cell) (row : nat * list cell)
  : result (option OutputTransaction) :=
  let get := Pandas.get labels (fst row) (snd row) in
  let date_val := get "Date" "" in
  let time_val := get "Time/Eff.Date" "" in
  has_date ← Pandas.truth date_val;
  let date_str := if (has_date : bool) then PyStr.strip (py_str date_val) else "" in
  let description := PyStr.strip (py_str (get "Descriptions" "")) in
  let wd_value := get "Withdrawal / Deposit" "" in
  '(withdrawal, deposit) ← parse_amount wd_value;
  let channel := PyStr.strip (py_str (get "Channel" "")) in
  let details := PyStr.strip (py_str (get "Details" "")) in
  let full_description :=
    if PyStr.truthy description && PyStr.truthy details
    then description +:+ " - " +:+ details
    else if PyStr.truthy description then description else details in
  if negb (is_some withdrawal) && negb (is_some deposit)
  then Ok None
  else
    has_time ← Pandas.truth time_val;
    Ok (Some {| Date := date_str;
                Description := full_description;
                Withdrawal := amount_field withdrawal;
                Deposit := amount_field deposit;
                Category := channel;
                Notes := if (has_time : bool)
                         then "Time/Eff.Date: " +:+ py_str time_val
                         else "" |}).

Fixpoint transform_rows (labels : list cell) (rows : list (nat * list cell))
  : result (list OutputTransaction) :=
  match rows with
  | [] => Ok []
  | row :: rows' =>
      r ← transform_row labels row;
      rest ← transform_rows labels rows';
      Ok (match r with
          | Some t => t :: rest
          | None => rest
          end)
  end.

Definition clean_and_transform (raw_data : list raw_row)
  : result (list OutputTransaction) :=
  match raw_data with
  | [] => Raise (ValueError "No data extracted from PDF")
  | headers :: data_rows =>
      df ← Pandas.make data_rows headers;
      let df := Pandas.dropna_all df in
      transform_rows (Pandas.columns df) (Pandas.rows df)
  end.

End CleanAndTransform.

(** ** Files, standard output, and computations that use them *)

Definition table : Type := list raw_row.

(** What a file holds: a PDF, by the tables pdfplumber finds on each of its
    pages; a file pdfplumber cannot open, by the message of the error it
    raises; or a text that was written. *)
Inductive content : Type :=
| Pdf (pages : list (list table))
| NotPdf (error : string)
| Text (text : string).

Record World : Type := {
  files : gmap string content;
  stdout : list string
}.

Definition io (A : Type) : Type := World -> result A * World.

#[global] Instance io_ret : MRet io := fun _ a w => (Ok a, w).

#[global] Instance io_bind : MBind io := fun _ _ k m w =>
  match m w with
  | (Ok a, w') => k a w'
  | (Raise e, w') => (Raise e, w')
  end.

Definition raise {A : Type} (e : exn) : io A := fun w => (Raise e, w).

Definition lift {A : Type} (r : result A) : io A := fun w => (r, w).

Definition print (line : string) : io unit := fun w =>
  (Ok tt, {| files := files w; stdout := stdout w ++ [line] |}).

Definition write_file (path : string) (c : content) : io unit := fun w =>
  (Ok tt, {| files := <[path := c]> (files w); stdout := stdout w |}).

Definition unlink_if_exists (path : string) : io unit := fun w =>
  (Ok tt, {| files := delete path (files w); stdout := stdout w |}).

Definition not_found (path : string) : exn :=
  IOError ("[Errno 2] No such file or directory: '" +:+ path +:+ "'").

Record BankStatementConverter : Type := {
  input_path : string;
  output_path : string
}.

Definition extract_tables_from_pdf (self : BankStatementConverter)
  : io (list raw_row) := fun w =>
  match files w !! input_path self with
  | None => (Raise (not_found (input_path self)), w)
  | Some (Pdf pages) =>
      (Ok (flat_map (fun tables =>
             flat_map (fun t : table => match t with [] => [] | _ => t end)
                      tables) pages), w)
  | Some (NotPdf error) => (Raise (IOError error), w)
  | Some (Text _) => (Raise (IOError "No /Root object! - Is this really a PDF?"), w)
  end.

(** *** [DataFrame.to_csv(path, index=False)] *)

Module Csv.

Definition dquote : ascii := ascii_of_nat 34.
Definition newline : string := String (ascii_of_nat 10) EmptyString.

Definition special (c : ascii) : bool :=
  Ascii.eqb c "," || Ascii.eqb c dquote
  || Ascii.eqb c (ascii_of_nat 10) || Ascii.eqb c (ascii_of_nat 13).

Fixpoint needs_quote (s : string) : bool :=
  match s with
  | EmptyString => false
  | String c s' => special c || needs_quote s'
  end.

Fixpoint double (s : string) : string :=
  match s with
  | EmptyString => EmptyString
  | String c s' =>
      if Ascii.eqb c dquote then String c (String c (double s'))
      else String c (double s')
  end.

Definition quote (s : string) : string :=
  if needs_quote s
  then String dquote (double s) +:+ String dquote EmptyString
  else s.

Definition line (fields : list string) : string :=
  String.concat "," (map quote fields) +:+ newline.

Definition field_text (f : field) : string :=
  match f with
  | FNum x => PyFloat.repr x
  | FEmpty => EmptyString
  end.

Definition fields (t : OutputTransaction) : list string :=
  [Date t; Description t; field_text (Withdrawal t); field_text (Deposit t);
   Category t; Notes t].

Definition header : list string :=
  ["Date"; "Description"; "Withdrawal"; "Deposit"; "Category"; "Notes"].

Definition row (t : OutputTransaction) : string := line (fields t).

(** A frame built from no record has no column: only the end of the
    header line is written. *)
Definition to_csv (df : list OutputTransaction) : string :=
  match df with
  | [] => newline
  | _ :: _ => line header +:+ String.concat "" (map row df)
  end.

End Csv.

Section Convert.

Variable series_str : string -> list cell -> nat -> string.

Definition convert (self : BankStatementConverter) : io string :=
  print ("Processing: " +:+ input_path self);;
  raw_data ← extract_tables_from_pdf self;
  match raw_data with
  | [] => raise (ValueError "No tables found in PDF")
  | _ :: _ =>
      print ("Extracted " +:+ PyStr.of_nat (length raw_data) +:+ " rows from PDF");;
      df ← lift (clean_and_transform series_str raw_data);
      print ("Processed " +:+ PyStr.of_nat (length df) +:+ " transactions");;
      write_file (output_path self) (Text (Csv.to_csv df));;
      print ("Saved to: " +:+ output_path self);;
      mret (output_path self)
  end.

End Convert.

(** ** api_server.py *)

Inductive response : Type :=
| FileResponse (path media_type filename : string)
| HTTPException (status_code : nat) (detail : string).

Definition UPLOAD_DIR : string := "/app/uploads".
Definition OUTPUT_DIR : string := "/app/outputs".

(** The last position of [c] in [s], counted from 0. *)
Fixpoint rfind (c : ascii) (s : string) : option nat :=
  match s with
  | EmptyString => None
  | String a s' =>
      match rfind c s' with
      | Some i => Some (S i)
      | None => if Ascii.eqb a c then Some 0%nat else None
      end
  end.

(** [Path(name).stem] *)
Definition stem (path : string) : string :=
  let name :=
    match rfind "/" path with
    | Some i => PyStr.drop (S i) path
    | None => path
    end in
  match rfind "." name with
  | Some i =>
      if (0 <? i)%nat && (i <? String.length name - 1)%nat
      then PyStr.take i name
      else name
  | None => name
  end.

(** Opening a new file for writing in one of the two directories: the
    name must not lead into a directory below it, as there is none. *)
Definition save_upload (dir name : string) (body : content) : io unit :=
  if PyStr.contains "/" name
  then raise (not_found (dir +:+ "/" +:+ name))
  else write_file (dir +:+ "/" +:+ name) body.

Section Handler.

Variable series_str : string -> list cell -> nat -> string.

(** The handler of [POST /convert], for an upload named [filename] that
    holds [body]; [job_id] is the identifier drawn for the request. *)
Definition convert_pdf (filename : string) (body : content) (job_id : string)
  : World -> response * World := fun w =>
  if negb (PyStr.endswith filename ".pdf")
  then (HTTPException 400 "Only PDF files are accepted", w)
  else
    let input := UPLOAD_DIR +:+ "/" +:+ job_id +:+ "_" +:+ filename in
    let output := OUTPUT_DIR +:+ "/" +:+ job_id +:+ "_firefly.csv" in
    let attempt : io string :=
      save_upload UPLOAD_DIR (job_id +:+ "_" +:+ filename) body;;
      convert series_str {| input_path := input; output_path := output |} in
    let '(r, w1) := attempt w in
    let '(_, w2) := unlink_if_exists input w1 in
    (match r with
     | Ok _ => FileResponse output "text/csv" (stem filename +:+ "_firefly.csv")
     | Raise e => HTTPException 500 ("Conversion failed: " +:+ exn_str e)
     end, w2).

End Handler.

(** *** The handler of [POST /convert-json] *)

(** The answer of the JSON endpoint: the content of the JSON response, or
    the HTTP exception raised. *)
Inductive json_reply : Type :=
| JSONResponse (content : string)
| JSONException (status_code : nat) (detail : string).

(** Reading a text file back. *)
Definition read_text (path : string) : io string := fun w =>
  match files w !! path with
  | Some (Text text) => (Ok text, w)
  | Some _ => (Raise (IOError "'utf-8' codec can't decode the file"), w)
  | None => (Raise (not_found path), w)
  end.

Section JsonHandler.

Variable series_str : string -> list cell -> nat -> string.

(** What [pd.read_csv], [to_dict], [to_csv] and the rendering of the
    [JSONResponse] make of the name of the upload and the text of the CSV
    file: the content of the response, or the exception one of them
    raises. *)
Variable json_content : string -> string -> result string.

Definition convert_pdf_json (filename : string) (body : content) (job_id : string)
  : World -> json_reply * World := fun w =>
  if negb (PyStr.endswith filename ".pdf")
  then (JSONException 400 "Only PDF files are accepted", w)
  else
    let input := UPLOAD_DIR +:+ "/" +:+ job_id +:+ "_" +:+ filename in
    let output := OUTPUT_DIR +:+ "/" +:+ job_id +:+ "_firefly.csv" in
    let attempt : io string :=
      save_upload UPLOAD_DIR (job_id +:+ "_" +:+ filename) body;;
      convert series_str {| input_path := input; output_path := output |};;
      text ← read_text output;
      lift (json_content filename text) in
    let '(r, w1) := attempt w in
    let '(_, w2) := unlink_if_exists input w1 in
    let '(_, w3) := unlink_if_exists output w2 in
    (match r with
     | Ok content => JSONResponse content
     | Raise e => JSONException 500 ("Conversion failed: " +:+ exn_str e)
     end, w3).

End JsonHandler.

(** ** The command line *)

(** [pathlib] paths of the POSIX flavour: the root ([/], [//] or none) and
    the components, none of them empty or a lone point. *)
Module Posix.

Record path : Type := { root : string; tail : list string }.

(** [s.split('/')]; [cur] holds the characters of the component being
    read. *)
Fixpoint split_from (cur : string) (s : string) : list string :=
  match s with
  | EmptyString => [cur]
  | String c s' =>
      if Ascii.eqb c "/" then cur :: split_from EmptyString s'
      else split_from (cur +:+ String c EmptyString) s'
  end.

Definition split (s : string) : list string := split_from EmptyString s.

Definition kept (x : string) : bool :=
  PyStr.truthy x && negb (String.eqb x ".").

(** [PurePosixPath(s)] *)
Definition parse (s : string) : path :=
  {| root := if PyStr.startswith s "//" && negb (PyStr.startswith s "///")
             then "//"
             else if PyStr.startswith s "/" then "/" else EmptyString;
     tail := List.filter kept (split s) |}.

(** [str(p)] *)
Definition str (p : path) : string :=
  match root p, tail p with
  | EmptyString, [] => "."
  | r, t => r +:+ String.concat "/" t
  end.

(** [p.parent] *)
Definition parent (p : path) : path :=
  {| root := root p; tail := removelast (tail p) |}.

(** [p.name] *)
Definition name (p : path) : string := List.last (tail p) EmptyString.

(** [p / x] for a text [x] that is one component: not empty, not a lone
    point, without a slash. *)
Definition child (p : path) (x : string) : path :=
  {| root := root p; tail := tail p ++ [x] |}.

End Posix.

(** [BankStatementConverter(input_path, output_path)]; the two paths are
    kept as their texts. *)
Definition new_converter (input : string) (output : option string)
  : BankStatementConverter :=
  let input_path := Posix.parse input in
  let default :=
    Posix.child (Posix.parent input_path)
                (stem (Posix.name input_path) +:+ "_firefly.csv") in
  {| input_path := Posix.str input_path;
     output_path :=
       Posix.str match output with
                 | Some o => if PyStr.truthy o then Posix.parse o else default
                 | None => default
                 end |}.

(** How the process ends: [sys.exit(code)], an exception that nothing
    catches, or the end of [main]. *)
Inductive ending : Type :=
| Exit (code : nat)
| Uncaught (e : exn)
| Finished.

Section Main.

Variable series_str : string -> list cell -> nat -> string.

(** [main()] with [sys.argv = argv] *)
Definition main (argv : list string) : World -> ending * World := fun w =>
  match argv with
  | [] | [_] =>
      let '(_, w') := print "Usage: python converter.py <input_pdf> [output_csv]" w in
      (Exit 1, w')
  | _ :: input_file :: rest =>
      let output_file := match rest with
                         | [] => None
                         | o :: _ => Some o
                         end in
      let converter := new_converter input_file output_file in
      match convert series_str converter w with
      | (Ok _, w') => (Finished, w')
      | (Raise e, w') => (Uncaught e, w')
      end
  end.

End Main.

(** * Properties *)

(** ** Vocabulary of the statements *)

Definition statement_header : raw_row :=
  [Some "Date"; Some "Descriptions"; Some "Withdrawal / Deposit";
   Some "Channel"; Some "Details"].

Definition grocery_row : raw_row :=
  [Some "2024-01-05"; Some "Grocery"; Some "DR 45.00"; Some "POS"; Some "Store A"].

(** The grocery row with blanks around the text of its Channel cell, and the
    record made from it. *)
Definition pos_row : raw_row :=
  [Some "2024-01-05"; Some "Grocery"; Some "DR 45.00"; Some " POS "; Some "Store A"].

(** 45 = 6333186975989760 / 2^47 and 50 = 7036874417766400 / 2^47 *)
Definition float_45 : spec_float := S754_finite false 6333186975989760 (-47).
Definition float_50 : spec_float := S754_finite false 7036874417766400 (-47).
(** 100.5 = 7072058789855232 / 2^46 *)
Definition float_100_5 : spec_float := S754_finite false 7072058789855232 (-46).
(** 1250 = 5497558138880000 / 2^42 *)
Definition float_1250 : spec_float := S754_finite false 5497558138880000 (-42).

Definition pos_record : OutputTransaction :=
  {| Date := "2024-01-05";
     Description := "Grocery - Store A";
     Withdrawal := FNum float_45;
     Deposit := FEmpty;
     Category := "POS";
     Notes := "" |}.

(** A rendering of Series for the statements in which none is rendered. *)
Definition no_series : string -> list cell -> nat -> string :=
  fun _ _ _ => EmptyString.

Definition empty_world : World := {| files := ∅; stdout := [] |}.

Definition with_line (w : World) (line : string) : World :=
  {| files := files w; stdout := stdout w ++ [line] |}.

(** An upload of two pages, the first without a table and the second with
    an empty one, and the conversion job for it. *)
Definition blank_pdf_world : World :=
  {| files := {[ "/app/uploads/j_blank.pdf" := Pdf [[]; [[]]] ]}; stdout := [] |}.

Definition blank_job : BankStatementConverter :=
  {| input_path := "/app/uploads/j_blank.pdf";
     output_path := "/app/outputs/j_firefly.csv" |}.

(** Texts made of digits and points only, and texts without any. *)
Fixpoint all_in_class (s : string) : bool :=
  match s with
  | EmptyString => true
  | String c s' => Re.in_class c && all_in_class s'
  end.

Fixpoint none_in_class (s : string) : bool :=
  match s with
  | EmptyString => true
  | String c s' => negb (Re.in_class c) && none_in_class s'
  end.

Fixpoint points (s : string) : nat :=
  match s with
  | EmptyString => 0
  | String c s' => if Ascii.eqb c "." then S (points s') else points s'
  end.

Fixpoint has_digit (s : string) : bool :=
  match s with
  | EmptyString => false
  | String c s' => PyStr.is_digit c || has_digit s'
  end.

(** An unsigned numeral: digits with at most one point among them, and at
    least one digit. *)
Definition unsigned_numeral (s : string) : bool :=
  all_in_class s && (points s <=? 1)%nat && has_digit s.

(** Texts of ASCII characters and Baht signs.  Outside ASCII Python knows
    further white space, digits and cased letters; on these texts its
    classes are the ones of [PyStr] and [Re]. *)
Fixpoint is_ascii (s : string) : bool :=
  match s with
  | EmptyString => true
  | String c s' => (PyStr.code c <? 128)%nat && is_ascii s'
  end.

Definition plain_text (s : string) : bool := is_ascii (PyStr.remove baht s).








(** The end of a line of the CSV file (the line separator of Linux, where
    the converter and its server run). *)
Definition line_feed : string := String "010" EmptyString.

Definition fifty_row : raw_row :=
  [Some "2024-01-05"; Some "Grocery"; Some "DR 50.00"; Some "POS"; Some "Store A"].

Definition fifty_record : OutputTransaction :=
  {| Date := "2024-01-05";
     Description := "Grocery - Store A";
     Withdrawal := FNum float_50;
     Deposit := FEmpty;
     Category := "POS";
     Notes := "" |}.

(** *** Vocabulary of the further properties *)

Definition unsigned_amount (x : spec_float) : bool :=
  match x with
  | S754_zero false | S754_infinity false | S754_finite false _ _ => true
  | _ => false
  end.

(** [d], [r], [D] or [R] *)
Definition letter_dr (c : ascii) : bool :=
  Ascii.eqb (PyStr.lower_char c) "d" || Ascii.eqb (PyStr.lower_char c) "r".

Fixpoint no_letter_dr (s : string) : bool :=
  match s with
  | EmptyString => true
  | String c s' => negb (letter_dr c) && no_letter_dr s'
  end.

(** [thinned s t]: [t] is [s] without some of its characters, none of them
    one of the letters above. *)
Inductive thinned : string -> string -> Prop :=
| thinned_nil : thinned EmptyString EmptyString
| thinned_keep (c : ascii) (s t : string) :
    thinned s t -> thinned (String c s) (String c t)
| thinned_drop (c : ascii) (s t : string) :
    letter_dr c = false -> thinned s t -> thinned (String c s) t.

(** Empty, or starting with a character that is neither a digit nor a
    point. *)
Definition starts_outside (s : string) : bool :=
  match s with
  | EmptyString => true
  | String c _ => negb (Re.in_class c)
  end.

Definition starts_clean (s : string) : bool :=
  match s with
  | EmptyString => true
  | String c _ => negb (PyStr.is_space c)
  end.

Fixpoint ends_clean (s : string) : bool :=
  match s with
  | EmptyString => true
  | String c EmptyString => negb (PyStr.is_space c)
  | String _ s' => ends_clean s'
  end.

Definition trimmed (s : string) : bool := starts_clean s && ends_clean s.

Definition has_label (key : string) (labels : list cell) : bool :=
  existsb (Pandas.label_is key) labels.

Definition count_label (key : string) (labels : list cell) : nat :=
  length (List.filter (Pandas.label_is key) labels).

Definition amount_header : raw_row :=
  [Some "Date"; Some "Descriptions"; Some "Amount"; Some "Channel"; Some "Details"].

(** The rows of all tables of all pages, in their order. *)
Definition all_rows (pages : list (list table)) : list raw_row :=
  List.concat (List.concat pages).

Definition upload_path (job_id filename : string) : string :=
  UPLOAD_DIR +:+ "/" +:+ job_id +:+ "_" +:+ filename.

Definition download_path (job_id : string) : string :=
  OUTPUT_DIR +:+ "/" +:+ job_id +:+ "_firefly.csv".

Definition grocery_pdf : content := Pdf [[[statement_header; grocery_row]]].

(** What the rendering of the JSON response does with the frame read back
    from a CSV file of the converter: an empty field is read as NaN, which
    the JSON encoder of the response refuses. *)
Definition nan_refused : string -> string -> result string :=
  fun _ _ => Raise (ValueError "Out of range float values are not JSON compliant").

Definition usage_line : string :=
  "Usage: python converter.py <input_pdf> [output_csv]".

(** The components before the last one, each followed by a slash. *)
Fixpoint dirs (l : list string) : string :=
  match l with
  | [] => EmptyString
  | x :: l' => x +:+ "/" +:+ dirs l'
  end.

Definition short_row : raw_row := [Some "2024-01-05"; Some "Fee"; Some "DR 5.00"].

Definition zero_row : raw_row :=
  [Some "2024-01-05"; Some "Fee waiver"; Some "DR 0.00"; Some "POS"; Some "Store A"].

Definition zero_record : OutputTransaction :=
  {| Date := "2024-01-05";
     Description := "Fee waiver - Store A";
     Withdrawal := FEmpty;
     Deposit := FEmpty;
     Category := "POS";
     Notes := "" |}.

Definition notes_label : string := "Time/Eff.Date: ".

(** ** Texts of digits and points *)

Lemma in_class_cases (c : ascii) :
  Re.in_class c = true ->
  (48 <= PyStr.code c <= 57)%nat \/ c = "."%char.
Proof.
  unfold Re.in_class, PyStr.is_digit, PyStr.between.
  intros [H|H]%orb_true_iff.
  - left. apply andb_true_iff in H as [H1 H2].
    apply Nat.leb_le in H1, H2. lia.
  - right. now apply Ascii.eqb_eq.
Qed.

Lemma between_outside (lo hi : nat) (c : ascii) :
  (PyStr.code c < lo)%nat \/ (hi < PyStr.code c)%nat ->
  PyStr.between lo hi c = false.
Proof.
  intros H. unfold PyStr.between. apply andb_false_iff.
  destruct H; [left | right]; apply Nat.leb_gt; lia.
Qed.

Lemma in_class_not_space (c : ascii) :
  Re.in_class c = true -> PyStr.is_space c = false.
Proof.
  intros [H| ->]%in_class_cases; [|reflexivity].
  unfold PyStr.is_space.
  rewrite !between_outside by lia. reflexivity.
Qed.

Lemma in_class_lower (c : ascii) :
  Re.in_class c = true -> PyStr.lower_char c = c.
Proof.
  intros [H| ->]%in_class_cases; [|reflexivity].
  unfold PyStr.lower_char, PyStr.is_upper.
  rewrite between_outside by lia. reflexivity.
Qed.

Lemma prefix_outside (a : ascii) (p s : string) :
  Re.in_class a = false -> all_in_class s = true ->
  String.prefix (String a p) s = false.
Proof.
  intros Ha Hs. destruct s as [|c s]; [reflexivity|].
  cbn in Hs. apply andb_true_iff in Hs as [Hc _].
  cbn. destruct (ascii_dec a c) as [->|_]; [congruence | reflexivity].
Qed.

Lemma contains_outside (a : ascii) (p s : string) :
  Re.in_class a = false -> all_in_class s = true ->
  PyStr.contains (String a p) s = false.
Proof.
  intros Ha. induction s as [|c s IH]; intros Hs.
  - reflexivity.
  - cbn [PyStr.contains]. rewrite prefix_outside by assumption.
    cbn in Hs. apply andb_true_iff in Hs as [_ Hs]. now apply IH.
Qed.

Lemma remove_outside (a : ascii) (p s : string) :
  Re.in_class a = false -> all_in_class s = true ->
  PyStr.remove (String a p) s = s.
Proof.
  intros Ha. unfold PyStr.remove. induction s as [|c s IH]; intros Hs.
  - reflexivity.
  - cbn [PyStr.remove_from]. rewrite prefix_outside by assumption.
    cbn in Hs. apply andb_true_iff in Hs as [_ Hs]. now rewrite IH.
Qed.

Lemma lower_numeral (s : string) :
  all_in_class s = true -> PyStr.lower s = s.
Proof.
  induction s as [|c s IH]; [reflexivity|].
  cbn. intros [Hc Hs]%andb_true_iff.
  now rewrite in_class_lower, IH.
Qed.

Lemma rstrip_numeral (s : string) :
  all_in_class s = true -> PyStr.rstrip s = s.
Proof.
  induction s as [|c s IH]; [reflexivity|].
  cbn. intros [Hc Hs]%andb_true_iff.
  rewrite IH by assumption.
  destruct s; [now rewrite in_class_not_space | reflexivity].
Qed.

Lemma lstrip_numeral (s : string) :
  all_in_class s = true -> PyStr.lstrip s = s.
Proof.
  destruct s as [|c s]; [reflexivity|].
  cbn. intros [Hc _]%andb_true_iff.
  now rewrite in_class_not_space.
Qed.

Lemma clean_value_numeral (s : string) :
  all_in_class s = true -> clean_value s = s.
Proof.
  intros Hs. unfold clean_value, PyStr.strip, baht.
  rewrite rstrip_numeral, lstrip_numeral by assumption.
  rewrite (remove_outside "$") by (assumption || reflexivity).
  rewrite (remove_outside (ascii_of_nat 224)) by (assumption || reflexivity).
  now rewrite (remove_outside ",") by (assumption || reflexivity).
Qed.

Lemma run_numeral (s : string) :
  all_in_class s = true -> Re.run s = s.
Proof.
  induction s as [|c s IH]; [reflexivity|].
  cbn. intros [Hc Hs]%andb_true_iff.
  now rewrite Hc, IH.
Qed.

Lemma search_numeral (s : string) :
  all_in_class s = true -> has_digit s = true -> Re.search s = Some s.
Proof.
  destruct s as [|c s]; [discriminate|].
  intros Hs _. pose proof (run_numeral _ Hs) as Hrun.
  cbn in Hs. apply andb_true_iff in Hs as [Hc _].
  cbn [Re.search]. now rewrite Hc, Hrun.
Qed.

Lemma search_no_run (s : string) :
  none_in_class s = true -> Re.search s = None.
Proof.
  induction s as [|c s IH]; [reflexivity|].
  cbn. intros [Hc Hs]%andb_true_iff.
  apply negb_true_iff in Hc. rewrite Hc. now apply IH.
Qed.

(** [scan] accepts what is left of a numeral: no further point once one has
    been read, and a digit read or still to come. *)
Lemma scan_numeral (s : string) :
  forall (dot : bool) (acc : N) (frac ndig : nat),
    all_in_class s = true ->
    (points s + (if dot then 1 else 0) <= 1)%nat ->
    (0 < ndig)%nat \/ has_digit s = true ->
    exists c k, PyFloat.scan s dot acc frac ndig = Some (c, k).
Proof.
  induction s as [|c s IH]; intros dot acc frac ndig Hs Hp Hd.
  - cbn. destruct Hd as [Hd|Hd]; [|discriminate].
    destruct ndig; [lia|]. cbn. eauto.
  - cbn in Hs. apply andb_true_iff in Hs as [Hc Hs].
    cbn [PyFloat.scan]. cbn in Hp.
    destruct (PyStr.is_digit c) eqn:Hdigit.
    + apply IH; [assumption| |left; lia].
      destruct (Ascii.eqb c "."); destruct dot; lia.
    + unfold Re.in_class in Hc. rewrite Hdigit in Hc. cbn in Hc.
      rewrite Hc in *. destruct dot; [lia|].
      apply IH; [assumption|lia|].
      cbn in Hd. rewrite Hdigit in Hd. exact Hd.
Qed.

Lemma of_text_numeral (s : string) :
  unsigned_numeral s = true -> exists a, PyFloat.of_text s = Ok a.
Proof.
  unfold unsigned_numeral.
  intros [[Hs Hp]%andb_true_iff Hd]%andb_true_iff.
  apply Nat.leb_le in Hp.
  destruct (scan_numeral s false 0%N 0%nat 0%nat Hs) as (c & k & Hscan);
    [lia | now right |].
  unfold PyFloat.of_text. rewrite Hscan. eauto.
Qed.

(** ** The amount classifier *)

Lemma parse_text_one_sided (text : string) (w d : option spec_float) :
  parse_text text = Ok (w, d) -> w = None \/ d = None.
Proof.
  unfold parse_text.
  destruct (Re.search (clean_value text)) as [group|]; cbn.
  - destruct (PyFloat.of_text group) as [amount|e]; cbn; [|discriminate].
    repeat match goal with
           | |- context [if ?b then _ else _] => destruct b
           end; intros [= <- <-]; auto.
  - intros [= <- <-]; auto.
Qed.

(** C10: whatever value it is given, [parse_amount] never returns a pair
    with both the withdrawal and the deposit set. *)
Theorem parse_amount_at_most_one (v : pyval) (w d : option spec_float) :
  parse_amount v = Ok (w, d) -> w = None \/ d = None.
Proof.
  unfold parse_amount.
  destruct (Pandas.truth v) as [b|e]; cbn; [|discriminate].
  destruct (negb b || Pandas.isna v).
  - intros [= <- <-]; auto.
  - apply parse_text_one_sided.
Qed.

Lemma parse_amount_at_most_one_witness :
  parse_amount (PStr "DR 45.00") = Ok (Some float_45, None)
  /\ (Some float_45 = None \/ (None : option spec_float) = None).
Proof.
  split; [vm_compute; reflexivity|].
  apply (parse_amount_at_most_one (PStr "DR 45.00")).
  vm_compute; reflexivity.
Defined.

Lemma prefix_app (p s : string) :
  String.prefix p s = true -> exists t, s = p +:+ t.
Proof.
  revert s. induction p as [|a p IH]; intros s H.
  - exists s. reflexivity.
  - destruct s as [|b s]; [discriminate|].
    cbn in H. destruct (ascii_dec a b) as [->|]; [|discriminate].
    destruct (IH _ H) as [t ->]. exists t. reflexivity.
Qed.

(** The word [withdrawal] holds the letters [dr]: the second test of the
    withdrawal branch never decides. *)
Lemma contains_withdrawal_dr (s : string) :
  PyStr.contains "withdrawal" s = true -> PyStr.contains "dr" s = true.
Proof.
  induction s as [|c s IH]; [discriminate|].
  cbn [PyStr.contains]. intros [H|H]%orb_true_iff.
  - apply prefix_app in H as [t Ht]. cbn in Ht.
    injection Ht as -> ->. reflexivity.
  - rewrite (IH H). apply orb_true_r.
Qed.

Lemma search_nonempty (s : string) (g : string) :
  Re.search (clean_value s) = Some g -> PyStr.truthy s = true.
Proof.
  destruct s; [discriminate | reflexivity].
Qed.

(** Without the letters [dr] and without a leading minus sign, the amount
    that is found is returned as the deposit. *)
Lemma parse_text_deposit (s g : string) (a : spec_float) :
  PyStr.contains "dr" (PyStr.lower (clean_value s)) = false ->
  PyStr.startswith (clean_value s) "-" = false ->
  Re.search (clean_value s) = Some g ->
  PyFloat.of_text g = Ok a ->
  parse_amount (PStr s) = Ok (None, Some a).
Proof.
  intros Hdr Hminus Hsearch Hfloat.
  unfold parse_amount. cbn [Pandas.truth Pandas.isna str_scalar].
  rewrite (search_nonempty s g Hsearch). cbn.
  unfold parse_text. rewrite Hsearch, Hfloat. cbn.
  rewrite Hdr, Hminus.
  destruct (PyStr.contains "withdrawal" _) eqn:Hw.
  - apply contains_withdrawal_dr in Hw. congruence.
  - cbn. now destruct (_ || _).
Qed.

Lemma numeral_is_deposit (s : string) :
  unsigned_numeral (clean_value s) = true ->
  exists a, PyFloat.of_text (clean_value s) = Ok a
            /\ parse_amount (PStr s) = Ok (None, Some a).
Proof.
  intros Hnum. destruct (of_text_numeral _ Hnum) as [a Ha].
  exists a. split; [exact Ha|].
  unfold unsigned_numeral in Hnum.
  apply andb_true_iff in Hnum as [[Hs _]%andb_true_iff Hd].
  apply (parse_text_deposit s (clean_value s) a).
  - rewrite lower_numeral by assumption. now apply contains_outside.
  - unfold PyStr.startswith. now apply prefix_outside.
  - now apply search_numeral.
  - exact Ha.
Qed.

(** The same for a text that is itself such a numeral: cleaning leaves it
    as it is. *)
Lemma plain_numeral_is_deposit (s : string) :
  unsigned_numeral s = true ->
  exists a, PyFloat.of_text s = Ok a /\ parse_amount (PStr s) = Ok (None, Some a).
Proof.
  intros Hnum.
  assert (Hclean : clean_value s = s).
  { apply clean_value_numeral. unfold unsigned_numeral in Hnum.
    now apply andb_true_iff in Hnum as [[Hs _]%andb_true_iff _]. }
  rewrite <- Hclean in Hnum.
  destruct (numeral_is_deposit s Hnum) as (a & Ha & Hp).
  rewrite Hclean in Ha. eauto.
Qed.

(** C2: a text that, once cleaned, is an unsigned numeral (digits with at
    most one point, and no keyword as it has no letter) is read as a
    deposit: the withdrawal is [None] and the deposit is the number [float]
    reads from it. *)
Theorem parse_amount_unsigned_numeral (s : string) :
  unsigned_numeral (clean_value s) = true ->
  exists a, PyFloat.of_text (clean_value s) = Ok a
            /\ parse_amount (PStr s) = Ok (None, Some a).
Proof.
  exact (numeral_is_deposit s).
Qed.

Lemma parse_amount_unsigned_numeral_witness :
  unsigned_numeral (clean_value "100.50") = true
  /\ exists a, PyFloat.of_text (clean_value "100.50") = Ok a
               /\ parse_amount (PStr "100.50") = Ok (None, Some a).
Proof.
  split; [vm_compute; reflexivity|].
  apply (parse_amount_unsigned_numeral "100.50").
  vm_compute; reflexivity.
Defined.

Lemma parse_amount_100_50 :
  parse_amount (PStr "100.50") = Ok (None, Some float_100_5)
  /\ PyFloat.repr float_100_5 = "100.5".
Proof. split; vm_compute; reflexivity. Qed.

(** C3 (as stated) fails: the letters [CR] do not make a deposit when the
    text also holds [DR], when it starts with a minus sign, or when it holds
    no number. *)
Lemma cr_is_not_always_a_deposit :
  PyStr.contains "cr" (PyStr.lower "DR 45.00 CR") = true
  /\ parse_amount (PStr "DR 45.00 CR") = Ok (Some float_45, None)
  /\ PyStr.contains "cr" (PyStr.lower "-45.00 CR") = true
  /\ parse_amount (PStr "-45.00 CR") = Ok (Some float_45, None)
  /\ PyStr.contains "cr" (PyStr.lower "CR") = true
  /\ parse_amount (PStr "CR") = Ok (None, None).
Proof.
  split; [|split; [|split; [|split; [|split]]]]; vm_compute; reflexivity.
Qed.

(** C3 (amended): a text of ASCII characters and Baht signs with the
    letters [CR] in any case is read as a deposit when its cleaned form does
    not hold the letters [DR] in any case, does not start with a minus sign,
    and holds a run of digits and points that [float] reads: the deposit is
    that number and the withdrawal is [None]. *)
Theorem parse_amount_cr_deposit (s g : string) (a : spec_float) :
  plain_text s = true ->
  PyStr.contains "cr" (PyStr.lower s) = true ->
  PyStr.contains "dr" (PyStr.lower (clean_value s)) = false ->
  PyStr.startswith (clean_value s) "-" = false ->
  Re.search (clean_value s) = Some g ->
  PyFloat.of_text g = Ok a ->
  parse_amount (PStr s) = Ok (None, Some a).
Proof.
  intros _ _. apply parse_text_deposit.
Qed.

Lemma parse_amount_cr_deposit_witness :
  parse_amount (PStr (baht +:+ "1,250.00 Cr")) = Ok (None, Some float_1250).
Proof.
  apply (parse_amount_cr_deposit (baht +:+ "1,250.00 Cr") "1250.00" float_1250);
    vm_compute; reflexivity.
Defined.

(** A text whose cleaned form has neither a digit nor a point holds no
    amount. *)
Lemma parse_amount_no_run (s : string) :
  none_in_class (clean_value s) = true ->
  parse_amount (PStr s) = Ok (None, None).
Proof.
  intros Hs. unfold parse_amount. cbn [Pandas.truth Pandas.isna str_scalar].
  destruct (PyStr.truthy s); cbn; [|reflexivity].
  unfold parse_text. now rewrite search_no_run.
Qed.

(** C4 (as the code behaves): a text without a digit but with a point is not
    treated as holding no amount; the lone point is handed to [float], which
    raises, and so does the transformation of a table with such a cell. *)
Theorem parse_amount_point_without_digit :
  Re.search (clean_value "N.A.") = Some "."
  /\ parse_amount (PStr "N.A.")
     = Raise (ValueError "could not convert string to float: '.'")
  /\ forall series_str,
       clean_and_transform series_str
         [statement_header;
          [Some "2024-01-05"; Some "Opening balance"; Some "N.A."; Some "POS"; Some ""]]
       = Raise (ValueError "could not convert string to float: '.'").
Proof.
  split; [|split]; intros; vm_compute; reflexivity.
Qed.

(** ** The row transformer *)

(** C5: the header row and the grocery row give exactly one record, with
    the withdrawal 45.0 (written [45.0] by Python) and an empty deposit. *)
Theorem clean_and_transform_grocery :
  forall series_str,
    clean_and_transform series_str [statement_header; grocery_row]
    = Ok [{| Date := "2024-01-05";
             Description := "Grocery - Store A";
             Withdrawal := FNum float_45;
             Deposit := FEmpty;
             Category := "POS";
             Notes := "" |}]
    /\ PyFloat.of_text "45.0" = Ok float_45
    /\ PyFloat.repr float_45 = "45.0".
Proof.
  intros; split; [|split]; vm_compute; reflexivity.
Qed.

(** C1 (as the code behaves): a row whose amount is zero is not skipped, and
    the record made from it has an empty Withdrawal and an empty Deposit. *)
Theorem clean_and_transform_zero_amount :
  forall series_str,
    clean_and_transform series_str
      [statement_header;
       [Some "2024-01-05"; Some "Fee waiver"; Some "DR 0.00"; Some "POS"; Some "Store A"]]
    = Ok [{| Date := "2024-01-05";
             Description := "Fee waiver - Store A";
             Withdrawal := FEmpty;
             Deposit := FEmpty;
             Category := "POS";
             Notes := "" |}].
Proof.
  intros; vm_compute; reflexivity.
Qed.

(** A record with an empty Withdrawal and an empty Deposit can only come
    from an amount that is zero. *)
Lemma both_empty_only_for_zero
  (series_str : string -> list cell -> nat -> string)
  (labels : list cell) (row : nat * list cell) (t : OutputTransaction) :
  transform_row series_str labels row = Ok (Some t) ->
  Withdrawal t = FEmpty -> Deposit t = FEmpty ->
  exists w d a,
    parse_amount (Pandas.get labels (fst row) (snd row) "Withdrawal / Deposit" "")
    = Ok (w, d)
    /\ (w = Some a \/ d = Some a) /\ PyFloat.truthy a = false.
Proof.
  unfold transform_row.
  destruct (Pandas.truth (Pandas.get labels (fst row) (snd row) "Date" ""))
    as [has_date|e]; cbn; [|discriminate].
  destruct (parse_amount _) as [[w d]|e]; cbn; [|discriminate].
  destruct (negb (is_some w) && negb (is_some d)) eqn:Hskip; [discriminate|].
  destruct (Pandas.truth _) as [has_time|e]; cbn; [|discriminate].
  intros [= <-]; cbn. intros Hw Hd.
  destruct w as [a|]; cbn in Hw.
  - exists (Some a), d, a. destruct (PyFloat.truthy a); [discriminate|auto].
  - destruct d as [a|]; cbn in Hd; [|discriminate].
    exists None, (Some a), a. destruct (PyFloat.truthy a); [discriminate|auto].
Qed.

Lemma transform_row_category
  (series_str : string -> list cell -> nat -> string)
  (labels : list cell) (row : nat * list cell) (t : OutputTransaction) :
  transform_row series_str labels row = Ok (Some t) ->
  Category t
  = PyStr.strip (py_str series_str
                   (Pandas.get labels (fst row) (snd row) "Channel" "")).
Proof.
  unfold transform_row.
  destruct (Pandas.truth (Pandas.get labels (fst row) (snd row) "Date" ""))
    as [has_date|e]; cbn; [|discriminate].
  destruct (parse_amount _) as [[withdrawal deposit]|e]; cbn; [|discriminate].
  destruct (negb (is_some withdrawal) && negb (is_some deposit));
    [discriminate|].
  destruct (Pandas.truth _) as [has_time|e]; cbn; [|discriminate].
  intros [= <-]. reflexivity.
Qed.

Lemma transform_rows_In
  (series_str : string -> list cell -> nat -> string)
  (labels : list cell) (t : OutputTransaction) (rows : list (nat * list cell)) :
  forall out,
    transform_rows series_str labels rows = Ok out ->
    In t out ->
    exists row, In row rows /\ transform_row series_str labels row = Ok (Some t).
Proof.
  induction rows as [|row rows IH]; intros out Hout Hin.
  - injection Hout as <-. destruct Hin.
  - cbn in Hout.
    destruct (transform_row series_str labels row) as [r|e] eqn:Hrow;
      cbn in Hout; [|discriminate].
    destruct (transform_rows series_str labels rows) as [rest|e];
      cbn in Hout; [|discriminate].
    injection Hout as <-.
    destruct r as [t'|].
    + destruct Hin as [->|Hin].
      * exists row. split; [now left | exact Hrow].
      * destruct (IH rest eq_refl Hin) as (row' & Hin' & Hrow').
        exists row'. split; [now right | exact Hrow'].
    + destruct (IH rest eq_refl Hin) as (row' & Hin' & Hrow').
      exists row'. split; [now right | exact Hrow'].
Qed.

Lemma number_map_In {A B : Type} (f : A -> B) (i : nat) (v : B) (l : list A) :
  forall j,
    In (i, v) (Pandas.number j (map f l)) ->
    (j <= i)%nat /\ exists r, nth_error l (i - j) = Some r /\ v = f r.
Proof.
  induction l as [|a l IH]; intros j Hin; [destruct Hin|].
  cbn in Hin. destruct Hin as [[= <- <-]|Hin].
  - split; [lia|]. exists a. rewrite Nat.sub_diag. split; reflexivity.
  - destruct (IH _ Hin) as (Hle & r & Hnth & Hv).
    split; [lia|]. exists r. split; [|exact Hv].
    replace (i - j)%nat with (S (i - S j)) by lia. exact Hnth.
Qed.

(** The rows of the frame are the data rows, filled up to the number of
    labels and named by their position. *)
Lemma make_rows (data : list raw_row) (headers : raw_row) (df : Pandas.DataFrame)
  (i : nat) (v : list cell) :
  Pandas.make data headers = Ok df ->
  In (i, v) (Pandas.rows (Pandas.dropna_all df)) ->
  Pandas.columns (Pandas.dropna_all df) = headers
  /\ exists r, nth_error data i = Some r /\ v = Pandas.pad (length headers) r.
Proof.
  intros Hmake Hin. cbn in Hin. apply filter_In in Hin as [Hin _].
  unfold Pandas.make in Hmake. destruct data as [|r0 data].
  - injection Hmake as <-. destruct Hin.
  - remember (Pandas.width (r0 :: data)) as k eqn:Hwidth.
    destruct (Nat.eqb_spec k (length headers)) as [Hk|]; [|discriminate].
    injection Hmake as <-. cbn [Pandas.rows Pandas.columns Pandas.dropna_all] in *.
    split; [reflexivity|]. rewrite Hk in Hin.
    apply (number_map_In (Pandas.pad (length headers)) i v (r0 :: data) 0%nat)
      in Hin as (_ & r & Hnth & ->).
    rewrite Nat.sub_0_r in Hnth. eauto.
Qed.








(** ** The orchestrator and the CSV output *)

Lemma extract_tables_files (self : BankStatementConverter) (w w' : World) :
  files w' = files w ->
  extract_tables_from_pdf self w' = (fst (extract_tables_from_pdf self w), w').
Proof.
  intros Hfiles. unfold extract_tables_from_pdf. rewrite Hfiles.
  destruct (files w !! input_path self) as [[pages|error|text]|]; reflexivity.
Qed.

(** C6: when the extraction gives no raw row, [convert] raises the error
    [No tables found in PDF]; it has printed its first line and has written
    no file. *)
Theorem convert_no_tables
  (series_str : string -> list cell -> nat -> string)
  (self : BankStatementConverter) (w : World) :
  fst (extract_tables_from_pdf self w) = Ok [] ->
  convert series_str self w
  = (Raise (ValueError "No tables found in PDF"),
     with_line w ("Processing: " +:+ input_path self))
  /\ files (snd (convert series_str self w)) = files w.
Proof.
  intros Hextract.
  assert (Hrun : convert series_str self w
                 = (Raise (ValueError "No tables found in PDF"),
                    with_line w ("Processing: " +:+ input_path self))).
  { unfold convert, mbind, io_bind, print; cbn.
    rewrite (extract_tables_files self w) by reflexivity.
    rewrite Hextract. reflexivity. }
  split; [exact Hrun | rewrite Hrun; reflexivity].
Qed.

Lemma convert_no_tables_witness :
  fst (extract_tables_from_pdf blank_job blank_pdf_world) = Ok []
  /\ files (snd (convert no_series blank_job blank_pdf_world))
     = files blank_pdf_world.
Proof.
  split; [vm_compute; reflexivity|].
  apply (convert_no_tables no_series blank_job blank_pdf_world).
  vm_compute; reflexivity.
Defined.

Lemma append_assoc (a b c : string) : (a +:+ b) +:+ c = a +:+ (b +:+ c).
Proof.
  induction a as [|x a IH]; [reflexivity|].
  change (String x ((a +:+ b) +:+ c) = String x (a +:+ (b +:+ c))). now f_equal.
Qed.

Lemma quote_plain (s : string) : Csv.needs_quote s = false -> Csv.quote s = s.
Proof.
  intros H. unfold Csv.quote. now rewrite H.
Qed.

(** C7 (as stated) fails: the row made from a withdrawal of 50.00 holds the
    text [50.0] in its Withdrawal field, and the text [50.00] nowhere. *)
Lemma withdrawal_50_is_not_written_50_00 :
  (forall series_str,
     clean_and_transform series_str [statement_header; fifty_row] = Ok [fifty_record])
  /\ PyFloat.of_text "50.00" = Ok float_50
  /\ Csv.to_csv [fifty_record]
     = "Date,Description,Withdrawal,Deposit,Category,Notes" +:+ line_feed
       +:+ "2024-01-05,Grocery - Store A,50.0,,POS," +:+ line_feed
  /\ PyStr.contains "50.00" (Csv.to_csv [fifty_record]) = false.
Proof.
  split; [|split; [|split]]; intros; vm_compute; reflexivity.
Qed.

(** C7 (amended): a record with the withdrawal 50.00 and no deposit, whose
    texts need no quoting, is written as the line of the column names
    followed by one row: the Date and the Description, the Withdrawal field
    [50.0], an empty Deposit field, the Category and the Notes, separated by
    commas; the text [50.0] reads back as the number 50.00. *)
Theorem csv_row_withdrawal_50 (date description category notes : string)
  (x : spec_float) :
  PyFloat.of_text "50.00" = Ok x ->
  Csv.needs_quote date = false ->
  Csv.needs_quote description = false ->
  Csv.needs_quote category = false ->
  Csv.needs_quote notes = false ->
  Csv.to_csv [{| Date := date; Description := description;
                 Withdrawal := amount_field (Some x);
                 Deposit := amount_field None;
                 Category := category; Notes := notes |}]
  = "Date,Description,Withdrawal,Deposit,Category,Notes" +:+ line_feed
    +:+ date +:+ "," +:+ description +:+ ",50.0,," +:+ category +:+ ","
    +:+ notes +:+ line_feed
  /\ PyFloat.of_text "50.0" = Ok x.
Proof.
  intros Hx Hdate Hdescription Hcategory Hnotes.
  assert (H50 : PyFloat.of_text "50.00" = Ok float_50) by (vm_compute; reflexivity).
  rewrite H50 in Hx. injection Hx as <-.
  split; [|vm_compute; reflexivity].
  unfold Csv.to_csv, Csv.row, Csv.fields, Csv.line.
  cbn [map Date Description Withdrawal Deposit Category Notes].
  rewrite (quote_plain date), (quote_plain description),
    (quote_plain category), (quote_plain notes) by assumption.
  replace (Csv.field_text (amount_field (Some float_50))) with "50.0"
    by (vm_compute; reflexivity).
  replace (Csv.field_text (amount_field None)) with "" by reflexivity.
  replace (Csv.quote "50.0") with "50.0" by reflexivity.
  replace (Csv.quote "") with "" by reflexivity.
  replace (map Csv.quote Csv.header) with Csv.header by reflexivity.
  cbn [String.concat Csv.header].
  rewrite !append_assoc. reflexivity.
Qed.

Lemma csv_row_withdrawal_50_witness :
  Csv.to_csv [{| Date := "2024-01-05"; Description := "Grocery - Store A";
                 Withdrawal := amount_field (Some float_50);
                 Deposit := amount_field None;
                 Category := "POS"; Notes := "" |}]
  = "Date,Description,Withdrawal,Deposit,Category,Notes" +:+ line_feed
    +:+ "2024-01-05" +:+ "," +:+ "Grocery - Store A" +:+ ",50.0,," +:+ "POS" +:+ ","
    +:+ "" +:+ line_feed
  /\ PyFloat.of_text "50.0" = Ok float_50.
Proof.
  apply (csv_row_withdrawal_50 "2024-01-05" "Grocery - Store A" "POS" "" float_50);
    vm_compute; reflexivity.
Defined.

(** ** The HTTP front end *)

(** C9: an upload whose name does not end in [.pdf] is answered with status
    400, and nothing else happens: no file is stored and nothing is
    converted or printed. *)
Theorem convert_pdf_rejects_other_names
  (series_str : string -> list cell -> nat -> string)
  (filename : string) (body : content) (job_id : string) (w : World) :
  PyStr.endswith filename ".pdf" = false ->
  convert_pdf series_str filename body job_id w
  = (HTTPException 400 "Only PDF files are accepted", w).
Proof.
  intros Hname. unfold convert_pdf. rewrite Hname. reflexivity.
Qed.

Lemma convert_pdf_rejects_other_names_witness :
  PyStr.endswith "statement.txt" ".pdf" = false
  /\ convert_pdf no_series "statement.txt" (Pdf [[[statement_header; grocery_row]]])
       "0b5f" empty_world
     = (HTTPException 400 "Only PDF files are accepted", empty_world).
Proof.
  split; [reflexivity|].
  apply (convert_pdf_rejects_other_names no_series "statement.txt"); reflexivity.
Defined.

(** * Further properties of the code *)

(** ** Amounts have no sign *)

Lemma shr_1_nonneg (mrs : shr_record) :
  (0 <= shr_m mrs)%Z -> (0 <= shr_m (shr_1 mrs))%Z.
Proof.
  destruct mrs as [m r s]; cbn.
  destruct m as [|p|p]; [cbn; lia | | lia].
  destruct p; cbn; lia.
Qed.

Lemma iter_pos_keeps {A : Type} (P : A -> Prop) (f : A -> A) :
  (forall x, P x -> P (f x)) ->
  forall (n : positive) (x : A), P x -> P (SpecFloat.iter_pos f n x).
Proof.
  intros Hf. induction n as [n IH|n IH|]; intros x Hx; cbn; auto.
Qed.

Lemma shr_fexp_nonneg (m e : Z) (l : location) :
  (0 <= m)%Z ->
  (0 <= shr_m (fst (shr_fexp PyFloat.prec PyFloat.emax m e l)))%Z.
Proof.
  intros Hm. unfold shr_fexp, shr.
  assert (H0 : (0 <= shr_m (shr_record_of_loc m l))%Z)
    by (destruct l as [|[]]; exact Hm).
  destruct (_ - e)%Z as [|p|p]; cbn [fst]; try exact H0.
  apply (iter_pos_keeps (fun mrs => (0 <= shr_m mrs)%Z)); [|exact H0].
  exact shr_1_nonneg.
Qed.

Lemma round_nearest_even_nonneg (m : Z) (l : location) :
  (0 <= m)%Z -> (0 <= round_nearest_even m l)%Z.
Proof.
  intros Hm. destruct l as [|[]]; cbn; try lia.
  destruct (Z.even m); lia.
Qed.

Lemma binary_round_aux_unsigned (m e : Z) (l : location) :
  (0 <= m)%Z ->
  unsigned_amount (binary_round_aux PyFloat.prec PyFloat.emax false m e l) = true.
Proof.
  intros Hm. unfold binary_round_aux.
  pose proof (shr_fexp_nonneg m e l Hm) as H1.
  destruct (shr_fexp PyFloat.prec PyFloat.emax m e l) as [mrs' e'].
  cbn [fst] in H1.
  pose proof (shr_fexp_nonneg _ e' loc_Exact
                (round_nearest_even_nonneg _ (loc_of_shr_record mrs') H1)) as H2.
  destruct (shr_fexp PyFloat.prec PyFloat.emax _ e' loc_Exact) as [mrs'' e''].
  cbn [fst] in H2.
  destruct (shr_m mrs'') as [|p|p]; [reflexivity | | lia].
  destruct (_ <=? _)%Z; reflexivity.
Qed.

Lemma of_decimal_unsigned (c : N) (k : Z) :
  unsigned_amount (PyFloat.of_decimal c k) = true.
Proof.
  destruct c as [|p]; [reflexivity|].
  unfold PyFloat.of_decimal, SFdiv, SFdiv_core_binary.
  set (num := Z.to_pos _). set (den := Z.to_pos _).
  set (m' := match _ with Z0 => _ | Zpos _ => _ | Zneg _ => _ end).
  assert (Hm' : (0 <= m')%Z).
  { subst m'. destruct (_ - _ - _)%Z; try lia.
    apply Z.shiftl_nonneg. lia. }
  pose proof (Z.div_pos m' (Zpos den) Hm' eq_refl) as Hq.
  unfold Z.div in Hq.
  destruct (Z.div_eucl m' (Zpos den)) as [q r]. cbn [xorb].
  now apply binary_round_aux_unsigned.
Qed.

Lemma parse_text_unsigned (text : string) (w d : option spec_float) (a : spec_float) :
  parse_text text = Ok (w, d) -> w = Some a \/ d = Some a ->
  unsigned_amount a = true.
Proof.
  unfold parse_text.
  destruct (Re.search (clean_value text)) as [group|]; cbn.
  - unfold PyFloat.of_text.
    destruct (PyFloat.scan group false 0 0 0) as [[c frac]|]; cbn; [|discriminate].
    repeat match goal with
           | |- context [if ?b then _ else _] => destruct b
           end; intros [= <- <-] [[= <-]|[= <-]]; apply of_decimal_unsigned.
  - intros [= <- <-] [|]; discriminate.
Qed.

(** X5: Whatever it is given, [parse_amount] returns amounts without a sign:
    zero, a positive number or the positive infinity, never a negative
    number and never a NaN. *)
Theorem parse_amount_unsigned (v : pyval) (w d : option spec_float) (a : spec_float) :
  parse_amount v = Ok (w, d) -> w = Some a \/ d = Some a ->
  unsigned_amount a = true.
Proof.
  unfold parse_amount.
  destruct (Pandas.truth v) as [b|e]; cbn; [|discriminate].
  destruct (negb b || Pandas.isna v).
  - intros [= <- <-] [|]; discriminate.
  - apply parse_text_unsigned.
Qed.

Lemma parse_amount_unsigned_witness :
  unsigned_amount float_45 = true.
Proof.
  apply (parse_amount_unsigned (PStr "-45.00") (Some float_45) None float_45).
  - vm_compute; reflexivity.
  - left; reflexivity.
Defined.

(** ** Cleaning keeps the letters *)

Lemma thinned_refl (s : string) : thinned s s.
Proof. induction s; constructor; assumption. Qed.

Lemma prefix_cons (a b : ascii) (p s : string) :
  String.prefix (String a p) (String b s) = Ascii.eqb a b && String.prefix p s.
Proof.
  cbn. destruct (ascii_dec a b) as [->|Hne].
  - now rewrite Ascii.eqb_refl.
  - apply Ascii.eqb_neq in Hne. now rewrite Hne.
Qed.

Lemma thinned_contains_dr (s t : string) :
  thinned s t ->
  PyStr.contains "dr" (PyStr.lower s) = true ->
  PyStr.contains "dr" (PyStr.lower t) = true.
Proof.
  induction 1 as [|c s t Hst IH|c s t Hc Hst IH]; intros Hs.
  - exact Hs.
  - cbn [PyStr.lower PyStr.contains] in *.
    apply orb_true_iff in Hs as [Hs|Hs]; [|rewrite (IH Hs); apply orb_true_r].
    rewrite prefix_cons in Hs. apply andb_true_iff in Hs as [Hd Hr].
    destruct s as [|x s]; [discriminate|].
    cbn [PyStr.lower] in Hr. rewrite prefix_cons in Hr.
    apply andb_true_iff in Hr as [Hr _].
    inversion Hst as [|? ? t' Hst'|? ? ? Hx Hst']; subst.
    + cbn [PyStr.lower]. rewrite !prefix_cons, Hd, Hr.
      now destruct (PyStr.lower t').
    + unfold letter_dr in Hx. apply orb_false_iff in Hx as [_ Hx].
      rewrite Ascii.eqb_sym in Hr. congruence.
  - cbn [PyStr.lower PyStr.contains] in Hs.
    apply orb_true_iff in Hs as [Hs|Hs]; [|exact (IH Hs)].
    rewrite prefix_cons in Hs. apply andb_true_iff in Hs as [Hd _].
    unfold letter_dr in Hc. apply orb_false_iff in Hc as [Hc _].
    rewrite Ascii.eqb_sym in Hd. congruence.
Qed.

Lemma space_no_letter (c : ascii) : PyStr.is_space c = true -> letter_dr c = false.
Proof.
  unfold PyStr.is_space, PyStr.between. intros H.
  assert (Hc : (PyStr.code c <= 32)%nat).
  { apply orb_true_iff in H as [H|H]; apply andb_true_iff in H as [_ H];
      apply Nat.leb_le in H; lia. }
  unfold letter_dr, PyStr.lower_char, PyStr.is_upper, PyStr.between.
  replace (65 <=? PyStr.code c)%nat with false by (symmetry; apply Nat.leb_gt; lia).
  cbn [andb]. apply orb_false_iff.
  split; apply Ascii.eqb_neq; intros ->; vm_compute in Hc; lia.
Qed.

Lemma thinned_lstrip (s : string) : thinned s (PyStr.lstrip s).
Proof.
  induction s as [|c s IH]; [constructor|].
  cbn. destruct (PyStr.is_space c) eqn:Hc.
  - apply thinned_drop; [now apply space_no_letter | exact IH].
  - apply thinned_refl.
Qed.

Lemma thinned_rstrip (s : string) : thinned s (PyStr.rstrip s).
Proof.
  induction s as [|c s IH]; [constructor|].
  cbn. destruct (PyStr.rstrip s) as [|x t].
  - destruct (PyStr.is_space c) eqn:Hc.
    + apply thinned_drop; [now apply space_no_letter | exact IH].
    + apply thinned_keep. exact IH.
  - apply thinned_keep. exact IH.
Qed.

Lemma thinned_app_drop (u s t : string) :
  no_letter_dr u = true -> thinned s t -> thinned (u +:+ s) t.
Proof.
  induction u as [|c u IH]; intros Hu Hst; [exact Hst|].
  cbn in Hu. apply andb_true_iff in Hu as [Hc Hu].
  apply negb_true_iff in Hc. cbn. apply thinned_drop; auto.
Qed.

Lemma length_append (u s : string) :
  String.length (u +:+ s) = (String.length u + String.length s)%nat.
Proof. induction u as [|c u IH]; simpl; [reflexivity | now f_equal]. Qed.

(** Skipping as many characters as [u] has drops [u]. *)
Lemma remove_from_skip (old u s : string) :
  PyStr.remove_from old (String.length u) (u +:+ s) = PyStr.remove_from old 0 s.
Proof.
  induction u as [|c u IH]; [reflexivity|]. cbn. exact IH.
Qed.

Lemma thinned_remove (old : string) :
  no_letter_dr old = true -> old <> EmptyString ->
  forall (n : nat) (s : string),
    (String.length s <= n)%nat -> thinned s (PyStr.remove old s).
Proof.
  intros Hold Hne. unfold PyStr.remove.
  induction n as [|n IH]; intros s Hlen.
  - destruct s; [constructor | cbn in Hlen; lia].
  - destruct s as [|c s]; [constructor|].
    cbn [PyStr.remove_from].
    destruct (String.prefix old (String c s)) eqn:Hp.
    + apply prefix_app in Hp as [t Ht].
      destruct old as [|a u]; [congruence|].
      cbn in Ht. injection Ht as <- ->.
      replace (String.length (String c u) - 1)%nat with (String.length u)
        by (cbn; lia).
      rewrite remove_from_skip.
      cbn in Hold. apply andb_true_iff in Hold as [Ha Hu].
      apply negb_true_iff in Ha.
      apply thinned_drop; [exact Ha|].
      apply thinned_app_drop; [exact Hu|].
      apply IH. cbn in Hlen.
      rewrite length_append in Hlen. lia.
    + apply thinned_keep. apply IH. cbn in Hlen. lia.
Qed.

(** The letters [DR] of a text, in any case, are still there once the text
    is cleaned. *)
Lemma clean_value_keeps_dr (s : string) :
  PyStr.contains "dr" (PyStr.lower s) = true ->
  PyStr.contains "dr" (PyStr.lower (clean_value s)) = true.
Proof.
  intros Hs. unfold clean_value, PyStr.strip.
  apply (thinned_contains_dr _ _ (thinned_remove "," eq_refl ltac:(discriminate) _ _ (Nat.le_refl _))).
  apply (thinned_contains_dr _ _ (thinned_remove baht eq_refl ltac:(discriminate) _ _ (Nat.le_refl _))).
  apply (thinned_contains_dr _ _ (thinned_remove "$" eq_refl ltac:(discriminate) _ _ (Nat.le_refl _))).
  apply (thinned_contains_dr _ _ (thinned_lstrip _)).
  apply (thinned_contains_dr _ _ (thinned_rstrip _)).
  exact Hs.
Qed.

(** X1: A text of ASCII characters and Baht signs with the letters [DR] in
    any case, in which a number is found once it is cleaned, is a withdrawal
    of that number, whatever else it holds. *)
Theorem parse_amount_dr_withdrawal (s g : string) (a : spec_float) :
  plain_text s = true ->
  PyStr.contains "dr" (PyStr.lower s) = true ->
  Re.search (clean_value s) = Some g ->
  PyFloat.of_text g = Ok a ->
  parse_amount (PStr s) = Ok (Some a, None).
Proof.
  intros _ Hdr Hsearch Hfloat.
  unfold parse_amount. cbn [Pandas.truth Pandas.isna str_scalar].
  rewrite (search_nonempty s g Hsearch). cbn.
  unfold parse_text. rewrite Hsearch, Hfloat. cbn.
  now rewrite (clean_value_keeps_dr s Hdr).
Qed.

Lemma parse_amount_dr_withdrawal_witness :
  parse_amount (PStr " Dr $1,250.00 (CR reversed) ") = Ok (Some float_1250, None).
Proof.
  apply (parse_amount_dr_withdrawal _ "1250.00"); vm_compute; reflexivity.
Defined.

Lemma remove_cons_other (a c : ascii) (p s : string) :
  a <> c ->
  PyStr.remove (String a p) (String c s) = String c (PyStr.remove (String a p) s).
Proof.
  intros Hne. unfold PyStr.remove. cbn [PyStr.remove_from].
  rewrite prefix_cons. apply Ascii.eqb_neq in Hne. now rewrite Hne.
Qed.

Lemma clean_value_minus (n : string) :
  all_in_class n = true -> has_digit n = true ->
  clean_value (String "-" n) = String "-" n.
Proof.
  intros Hs Hd. unfold clean_value, PyStr.strip, baht.
  assert (Hr : PyStr.rstrip (String "-" n) = String "-" n).
  { cbn [PyStr.rstrip]. rewrite rstrip_numeral by assumption.
    destruct n; [discriminate | reflexivity]. }
  rewrite Hr. cbn [PyStr.lstrip].
  replace (PyStr.is_space "-") with false by reflexivity.
  rewrite !remove_cons_other by discriminate.
  rewrite (remove_outside "$") by (assumption || reflexivity).
  rewrite (remove_outside (ascii_of_nat 224)) by (assumption || reflexivity).
  now rewrite (remove_outside ",") by (assumption || reflexivity).
Qed.

(** X2: A minus sign before an unsigned numeral moves the amount to the
    withdrawal and leaves the number as it is. *)
Theorem parse_amount_minus_sign (n : string) :
  unsigned_numeral n = true ->
  exists a, parse_amount (PStr n) = Ok (None, Some a)
            /\ parse_amount (PStr (String "-" n)) = Ok (Some a, None).
Proof.
  intros Hnum.
  destruct (plain_numeral_is_deposit n Hnum) as (a & Ha & Hp).
  exists a. split; [exact Hp|].
  unfold unsigned_numeral in Hnum.
  apply andb_true_iff in Hnum as [[Hs _]%andb_true_iff Hd].
  unfold parse_amount. cbn [Pandas.truth Pandas.isna str_scalar PyStr.truthy].
  cbn [negb orb mbind result_bind].
  unfold parse_text. rewrite clean_value_minus by assumption.
  cbn [Re.search]. replace (Re.in_class "-") with false by reflexivity.
  rewrite search_numeral, Ha by assumption.
  cbn [mbind result_bind].
  replace (PyStr.startswith (String "-" n) "-") with true
    by (unfold PyStr.startswith; rewrite prefix_cons; now destruct n).
  now rewrite !orb_true_r.
Qed.

Lemma parse_amount_minus_sign_witness :
  exists a, parse_amount (PStr "45.00") = Ok (None, Some a)
            /\ parse_amount (PStr "-45.00") = Ok (Some a, None).
Proof.
  apply (parse_amount_minus_sign "45.00"). vm_compute; reflexivity.
Defined.

(** ** The first run *)

Lemma search_skips (pre s : string) :
  none_in_class pre = true -> Re.search (pre +:+ s) = Re.search s.
Proof.
  induction pre as [|c pre IH]; [reflexivity|].
  cbn [none_in_class]. intros [Hc Hpre]%andb_true_iff.
  apply negb_true_iff in Hc.
  change (Re.search (String c pre +:+ s))
    with (if Re.in_class c then Some (Re.run (String c pre +:+ s))
          else Re.search (pre +:+ s)).
  rewrite Hc. now apply IH.
Qed.

Lemma run_stops (g rest : string) :
  all_in_class g = true ->
  Re.run rest = EmptyString ->
  Re.run (g +:+ rest) = g.
Proof.
  induction g as [|c g IH]; intros Hg Hrest; [exact Hrest|].
  cbn in Hg. apply andb_true_iff in Hg as [Hc Hg].
  change (Re.run (String c g +:+ rest))
    with (if Re.in_class c then String c (Re.run (g +:+ rest)) else EmptyString).
  rewrite Hc. now rewrite IH.
Qed.

Lemma search_run (pre g rest : string) :
  none_in_class pre = true ->
  all_in_class g = true -> g <> EmptyString ->
  starts_outside rest = true ->
  Re.search (pre +:+ g +:+ rest) = Some g.
Proof.
  intros Hpre Hg Hne Hout.
  assert (Hrest : Re.run rest = EmptyString).
  { destruct rest as [|x rest]; [reflexivity|].
    cbn in Hout. apply negb_true_iff in Hout. cbn. now rewrite Hout. }
  rewrite search_skips by assumption.
  destruct g as [|c g]; [congruence|].
  pose proof (run_stops _ rest Hg Hrest) as Hrun.
  cbn in Hg. apply andb_true_iff in Hg as [Hc _].
  change (Re.search (String c g +:+ rest))
    with (if Re.in_class c then Some (Re.run (String c g +:+ rest))
          else Re.search (g +:+ rest)).
  now rewrite Hc, Hrun.
Qed.

(** X3: The amount is read from the first run of digits and points only.
    When the cleaned form of a text of ASCII characters and Baht signs is a
    beginning without digit or point, then an unsigned numeral, then a rest
    that is empty or starts with another character, [parse_amount] returns
    the number of that numeral, as the withdrawal or as the deposit: the
    numbers the rest may hold play no part. *)
Theorem parse_amount_first_run (s pre g rest : string) :
  plain_text s = true ->
  clean_value s = pre +:+ g +:+ rest ->
  none_in_class pre = true ->
  unsigned_numeral g = true ->
  starts_outside rest = true ->
  exists a,
    PyFloat.of_text g = Ok a
    /\ (parse_amount (PStr s) = Ok (Some a, None)
        \/ parse_amount (PStr s) = Ok (None, Some a)).
Proof.
  intros _ Hclean Hpre Hnum Hrest.
  destruct (of_text_numeral g Hnum) as [a Ha].
  exists a. split; [exact Ha|].
  unfold unsigned_numeral in Hnum.
  apply andb_true_iff in Hnum as [[Hg _]%andb_true_iff Hd].
  assert (Hsearch : Re.search (clean_value s) = Some g).
  { rewrite Hclean. apply search_run; try assumption.
    intros ->. discriminate. }
  unfold parse_amount. cbn [Pandas.truth Pandas.isna str_scalar].
  rewrite (search_nonempty s g Hsearch). cbn.
  unfold parse_text. rewrite Hsearch, Ha. cbn.
  destruct (_ || _); [now left|].
  destruct (_ || _); now right.
Qed.

Lemma parse_amount_first_run_witness :
  exists a,
    PyFloat.of_text "45.00" = Ok a
    /\ (parse_amount (PStr "DR 45.00 ref 20240105") = Ok (Some a, None)
        \/ parse_amount (PStr "DR 45.00 ref 20240105") = Ok (None, Some a)).
Proof.
  apply (parse_amount_first_run "DR 45.00 ref 20240105" "DR " "45.00"
           " ref 20240105");
    vm_compute; reflexivity.
Defined.

(** ** Two more facts about amounts *)

(** X4: A text of ASCII characters and Baht signs in which, once it is
    cleaned, there is neither a digit nor a point holds no amount: both
    components are [None] and nothing is raised. *)
Theorem text_without_number_is_no_amount (s : string) :
  plain_text s = true ->
  none_in_class (clean_value s) = true ->
  parse_amount (PStr s) = Ok (None, None).
Proof.
  intros _. apply parse_amount_no_run.
Qed.

Lemma text_without_number_is_no_amount_witness :
  parse_amount (PStr " n/a ") = Ok (None, None).
Proof.
  apply (text_without_number_is_no_amount " n/a "); vm_compute; reflexivity.
Defined.

(** X12: A row gives a record with an empty Withdrawal and an empty Deposit only
    when the amount read from it is zero. *)
Theorem blank_record_has_zero_amount
  (series_str : string -> list cell -> nat -> string)
  (labels : list cell) (row : nat * list cell) (t : OutputTransaction) :
  transform_row series_str labels row = Ok (Some t) ->
  Withdrawal t = FEmpty -> Deposit t = FEmpty ->
  exists w d a,
    parse_amount (Pandas.get labels (fst row) (snd row) "Withdrawal / Deposit" "")
    = Ok (w, d)
    /\ (w = Some a \/ d = Some a) /\ PyFloat.truthy a = false.
Proof.
  exact (both_empty_only_for_zero series_str labels row t).
Qed.

Lemma blank_record_has_zero_amount_witness :
  exists w d a,
    parse_amount (Pandas.get statement_header 0 zero_row "Withdrawal / Deposit" "")
    = Ok (w, d)
    /\ (w = Some a \/ d = Some a) /\ PyFloat.truthy a = false.
Proof.
  apply (blank_record_has_zero_amount no_series statement_header (0%nat, zero_row)
           zero_record); vm_compute; reflexivity.
Defined.

(** ** Every record comes from a row *)

Lemma emitted_from_row
  (series_str : string -> list cell -> nat -> string)
  (headers : raw_row) (data : list raw_row)
  (out : list OutputTransaction) (t : OutputTransaction) :
  clean_and_transform series_str (headers :: data) = Ok out ->
  In t out ->
  exists i r,
    nth_error data i = Some r
    /\ transform_row series_str headers (i, Pandas.pad (length headers) r)
       = Ok (Some t).
Proof.
  intros Hout Hin. cbn [clean_and_transform] in Hout.
  destruct (Pandas.make data headers) as [df|e] eqn:Hmake; cbn in Hout;
    [|discriminate].
  destruct (transform_rows_In _ _ t _ _ Hout Hin) as ([i v] & Hrow & Ht).
  destruct (make_rows data headers df i v Hmake Hrow) as (Hcols & r & Hnth & ->).
  exists i, r. split; [exact Hnth|].
  cbn [Pandas.dropna_all Pandas.columns] in Ht, Hcols.
  rewrite Hcols in Ht. exact Ht.
Qed.

Lemma transform_rows_length
  (series_str : string -> list cell -> nat -> string)
  (labels : list cell) (rows : list (nat * list cell)) :
  forall out,
    transform_rows series_str labels rows = Ok out ->
    (length out <= length rows)%nat.
Proof.
  induction rows as [|row rows IH]; intros out Hout.
  - injection Hout as <-. reflexivity.
  - cbn in Hout.
    destruct (transform_row series_str labels row) as [r|e]; cbn in Hout;
      [|discriminate].
    destruct (transform_rows series_str labels rows) as [rest|e]; cbn in Hout;
      [|discriminate].
    injection Hout as <-. specialize (IH rest eq_refl).
    destruct r; cbn; lia.
Qed.

Lemma number_length {A : Type} (l : list A) :
  forall i, length (Pandas.number i l) = length l.
Proof. induction l as [|a l IH]; intros i; cbn; [reflexivity | now rewrite IH]. Qed.

Lemma filter_length_le {A : Type} (f : A -> bool) (l : list A) :
  (length (List.filter f l) <= length l)%nat.
Proof. induction l as [|a l IH]; cbn; [lia | destruct (f a); cbn; lia]. Qed.

(** X6: The output has at most one record for each data row; the header row
    gives none. *)
Theorem clean_and_transform_length
  (series_str : string -> list cell -> nat -> string)
  (headers : raw_row) (data : list raw_row) (out : list OutputTransaction) :
  clean_and_transform series_str (headers :: data) = Ok out ->
  (length out <= length data)%nat.
Proof.
  intros Hout. cbn [clean_and_transform] in Hout.
  destruct (Pandas.make data headers) as [df|e] eqn:Hmake; cbn in Hout;
    [|discriminate].
  apply transform_rows_length in Hout.
  cbn [Pandas.dropna_all Pandas.rows] in Hout.
  pose proof (filter_length_le
                (fun r : nat * list cell => negb (forallb Pandas.is_none (snd r)))
                (Pandas.rows df)) as Hf.
  assert (Hrows : length (Pandas.rows df) = length data).
  { unfold Pandas.make in Hmake. destruct data as [|r0 data].
    - now injection Hmake as <-.
    - destruct (_ =? _)%nat; [|discriminate].
      injection Hmake as <-. cbn. f_equal.
      now rewrite number_length, length_map. }
  lia.
Qed.

Lemma clean_and_transform_length_witness :
  (length [pos_record] <= length [pos_row])%nat.
Proof.
  apply (clean_and_transform_length no_series statement_header).
  vm_compute; reflexivity.
Defined.

(** ** Rows wider than the header *)

Lemma width_ge (r : raw_row) (data : list raw_row) :
  In r data -> (length r <= Pandas.width data)%nat.
Proof.
  induction data as [|r0 data IH]; intros Hin; [destruct Hin|].
  unfold Pandas.width in *. cbn [fold_right].
  destruct Hin as [->|Hin]; [lia|]. specialize (IH Hin). lia.
Qed.

(** X7: When a data row has more cells than the header row, the frame cannot be
    built: the transformation raises and gives no record at all. *)
Theorem clean_and_transform_wide_row
  (series_str : string -> list cell -> nat -> string)
  (headers r : raw_row) (data : list raw_row) :
  In r data -> (length headers < length r)%nat ->
  clean_and_transform series_str (headers :: data)
  = Raise (ValueError (PyStr.of_nat (length headers)
                       +:+ " columns passed, passed data had "
                       +:+ PyStr.of_nat (Pandas.width data) +:+ " columns")).
Proof.
  intros Hin Hlen. pose proof (width_ge r data Hin) as Hw.
  cbn [clean_and_transform]. unfold Pandas.make.
  destruct data as [|r0 data]; [destruct Hin|].
  destruct (Nat.eqb_spec (Pandas.width (r0 :: data)) (length headers)) as [Heq|_];
    [lia | reflexivity].
Qed.

Lemma clean_and_transform_wide_row_witness :
  clean_and_transform no_series
    [statement_header; grocery_row; grocery_row ++ [Some "extra"]]
  = Raise (ValueError "5 columns passed, passed data had 6 columns").
Proof.
  apply (clean_and_transform_wide_row no_series statement_header
           (grocery_row ++ [Some "extra"])).
  - right; left; reflexivity.
  - vm_compute; lia.
Defined.

(** ** The amount fields of a record *)

Lemma parse_amount_one_side (v : pyval) (w d : option spec_float) :
  parse_amount v = Ok (w, d) -> w = None \/ d = None.
Proof.
  unfold parse_amount.
  destruct (Pandas.truth v) as [b|e]; cbn; [|discriminate].
  destruct (negb b || Pandas.isna v).
  - intros [= <- <-]; auto.
  - apply parse_text_one_sided.
Qed.

Lemma amount_field_truthy (o : option spec_float) (x : spec_float) :
  amount_field o = FNum x -> o = Some x /\ PyFloat.truthy x = true.
Proof.
  destruct o as [a|]; cbn; [|discriminate].
  destruct (PyFloat.truthy a) eqn:Ha; [|discriminate].
  intros [= <-]. auto.
Qed.

Lemma transform_row_amounts
  (series_str : string -> list cell -> nat -> string)
  (labels : list cell) (row : nat * list cell) (t : OutputTransaction) :
  transform_row series_str labels row = Ok (Some t) ->
  exists w d,
    parse_amount (Pandas.get labels (fst row) (snd row) "Withdrawal / Deposit" "")
    = Ok (w, d)
    /\ Withdrawal t = amount_field w /\ Deposit t = amount_field d.
Proof.
  unfold transform_row.
  destruct (Pandas.truth (Pandas.get labels (fst row) (snd row) "Date" ""))
    as [has_date|e]; cbn; [|discriminate].
  destruct (parse_amount _) as [[w d]|e]; cbn; [|discriminate].
  destruct (negb (is_some w) && negb (is_some d)); [discriminate|].
  destruct (Pandas.truth _) as [has_time|e]; cbn; [|discriminate].
  intros [= <-]. exists w, d. auto.
Qed.

(** X8: No record of the output holds a number in both Withdrawal and Deposit,
    and a number it holds is never zero. *)
Theorem record_amounts
  (series_str : string -> list cell -> nat -> string)
  (headers : raw_row) (data : list raw_row)
  (out : list OutputTransaction) (t : OutputTransaction) :
  clean_and_transform series_str (headers :: data) = Ok out ->
  In t out ->
  (Withdrawal t = FEmpty \/ Deposit t = FEmpty)
  /\ (forall x, Withdrawal t = FNum x \/ Deposit t = FNum x ->
                PyFloat.truthy x = true).
Proof.
  intros Hout Hin.
  destruct (emitted_from_row _ _ _ _ _ Hout Hin) as (i & r & _ & Hrow).
  destruct (transform_row_amounts _ _ _ _ Hrow) as (w & d & Hp & -> & ->).
  split.
  - destruct (parse_amount_one_side _ _ _ Hp) as [-> | ->]; auto.
  - intros x [Hx|Hx]; now apply amount_field_truthy in Hx.
Qed.

Lemma record_amounts_witness :
  (Withdrawal pos_record = FEmpty \/ Deposit pos_record = FEmpty)
  /\ (forall x, Withdrawal pos_record = FNum x \/ Deposit pos_record = FNum x ->
                PyFloat.truthy x = true).
Proof.
  apply (record_amounts no_series statement_header [pos_row] [pos_record]).
  - vm_compute; reflexivity.
  - left; reflexivity.
Defined.

(** ** White space at the ends of the fields *)

Lemma lstrip_starts_clean (s : string) : starts_clean (PyStr.lstrip s) = true.
Proof.
  induction s as [|c s IH]; [reflexivity|].
  cbn. destruct (PyStr.is_space c) eqn:Hc; [exact IH|].
  cbn. now rewrite Hc.
Qed.

Lemma rstrip_ends_clean (s : string) : ends_clean (PyStr.rstrip s) = true.
Proof.
  induction s as [|c s IH]; [reflexivity|].
  cbn [PyStr.rstrip]. destruct (PyStr.rstrip s) as [|x t].
  - destruct (PyStr.is_space c) eqn:Hc; [reflexivity|]. cbn. now rewrite Hc.
  - exact IH.
Qed.

Lemma lstrip_ends_clean (s : string) :
  ends_clean s = true -> ends_clean (PyStr.lstrip s) = true.
Proof.
  induction s as [|c s IH]; [reflexivity|].
  intros Hs. cbn [PyStr.lstrip].
  destruct (PyStr.is_space c) eqn:Hc; [|exact Hs].
  destruct s as [|x s]; [reflexivity|]. apply IH. exact Hs.
Qed.

Lemma starts_clean_lstrip (s : string) :
  starts_clean s = true -> PyStr.lstrip s = s.
Proof.
  destruct s as [|c s]; [reflexivity|].
  cbn. intros Hc%negb_true_iff. now rewrite Hc.
Qed.

Lemma ends_clean_rstrip (s : string) :
  ends_clean s = true -> PyStr.rstrip s = s.
Proof.
  induction s as [|c s IH]; [reflexivity|].
  intros Hs. cbn [PyStr.rstrip].
  destruct s as [|x s].
  - cbn in *. apply negb_true_iff in Hs. now rewrite Hs.
  - rewrite IH by exact Hs. reflexivity.
Qed.

Lemma trimmed_strip_fixed (s : string) :
  trimmed s = true -> PyStr.strip s = s.
Proof.
  intros [Hl Hr]%andb_true_iff. unfold PyStr.strip.
  now rewrite ends_clean_rstrip, starts_clean_lstrip.
Qed.

Lemma strip_trimmed (s : string) : trimmed (PyStr.strip s) = true.
Proof.
  unfold trimmed, PyStr.strip.
  rewrite lstrip_starts_clean, lstrip_ends_clean; [reflexivity|].
  apply rstrip_ends_clean.
Qed.

Lemma starts_clean_app (d z : string) :
  PyStr.truthy d = true -> starts_clean d = true -> starts_clean (d +:+ z) = true.
Proof. destruct d; [discriminate | auto]. Qed.

Lemma ends_clean_app (z t : string) :
  PyStr.truthy t = true -> ends_clean t = true -> ends_clean (z +:+ t) = true.
Proof.
  intros Ht Hc. induction z as [|c z IH]; [exact Hc|].
  change (String c z +:+ t) with (String c (z +:+ t)).
  destruct (z +:+ t) as [|x u] eqn:Hz; [|exact IH].
  destruct z; [destruct t|]; discriminate.
Qed.

Lemma transform_row_trimmed
  (series_str : string -> list cell -> nat -> string)
  (labels : list cell) (row : nat * list cell) (t : OutputTransaction) :
  transform_row series_str labels row = Ok (Some t) ->
  trimmed (Date t) = true /\ trimmed (Description t) = true
  /\ trimmed (Category t) = true.
Proof.
  unfold transform_row.
  destruct (Pandas.truth (Pandas.get labels (fst row) (snd row) "Date" ""))
    as [has_date|e]; cbn; [|discriminate].
  destruct (parse_amount _) as [[w d]|e]; cbn; [|discriminate].
  destruct (negb (is_some w) && negb (is_some d)); [discriminate|].
  destruct (Pandas.truth _) as [has_time|e]; cbn; [|discriminate].
  intros [= <-]; cbn [Date Description Category].
  split; [|split].
  - destruct has_date; [apply strip_trimmed | reflexivity].
  - set (description := PyStr.strip (py_str series_str (Pandas.get _ _ _ "Descriptions" ""))).
    set (details := PyStr.strip (py_str series_str (Pandas.get _ _ _ "Details" ""))).
    pose proof (strip_trimmed (py_str series_str
      (Pandas.get labels (fst row) (snd row) "Descriptions" ""))) as Hd.
    pose proof (strip_trimmed (py_str series_str
      (Pandas.get labels (fst row) (snd row) "Details" ""))) as Ht.
    fold description in Hd. fold details in Ht.
    destruct (PyStr.truthy description) eqn:Hdt; cbn [andb]; [|exact Ht].
    destruct (PyStr.truthy details) eqn:Htt; [|exact Hd].
    apply andb_true_iff in Hd as [Hd1 Hd2], Ht as [Ht1 Ht2].
    unfold trimmed. apply andb_true_iff. split.
    + now apply starts_clean_app.
    + apply ends_clean_app; [|now apply ends_clean_app].
      destruct details; [discriminate | reflexivity].
  - apply strip_trimmed.
Qed.

(** X9: The Date, the Description and the Category of every record of the
    output have no white space at their ends: stripping them again changes
    nothing. *)
Theorem record_fields_stripped
  (series_str : string -> list cell -> nat -> string)
  (headers : raw_row) (data : list raw_row)
  (out : list OutputTransaction) (t : OutputTransaction) :
  clean_and_transform series_str (headers :: data) = Ok out ->
  In t out ->
  PyStr.strip (Date t) = Date t
  /\ PyStr.strip (Description t) = Description t
  /\ PyStr.strip (Category t) = Category t.
Proof.
  intros Hout Hin.
  destruct (emitted_from_row _ _ _ _ _ Hout Hin) as (i & r & _ & Hrow).
  destruct (transform_row_trimmed _ _ _ _ Hrow) as (H1 & H2 & H3).
  repeat split; now apply trimmed_strip_fixed.
Qed.

Lemma record_fields_stripped_witness :
  PyStr.strip (Date pos_record) = Date pos_record
  /\ PyStr.strip (Description pos_record) = Description pos_record
  /\ PyStr.strip (Category pos_record) = Category pos_record.
Proof.
  apply (record_fields_stripped no_series statement_header [pos_row] [pos_record]).
  - vm_compute; reflexivity.
  - left; reflexivity.
Defined.

(** ** A table without the amount column *)

Lemma select_no_label (key : string) (labels values : list cell) :
  has_label key labels = false -> Pandas.select key labels values = [].
Proof.
  revert values. induction labels as [|l labels IH]; intros values H.
  - reflexivity.
  - cbn in H. apply orb_false_iff in H as [Hl H].
    destruct values as [|v values]; cbn; [reflexivity|].
    rewrite Hl. now apply IH.
Qed.

Lemma select_length (key : string) (labels values : list cell) :
  (length (Pandas.select key labels values) <= count_label key labels)%nat.
Proof.
  unfold count_label. revert values.
  induction labels as [|l labels IH]; intros values; [cbn; lia|].
  destruct values as [|v values]; cbn; [lia|].
  destruct (Pandas.label_is key l); cbn; [specialize (IH values); lia | apply IH].
Qed.

Lemma get_single_truth (labels : list cell) (name : nat) (values : list cell)
  (key default : string) :
  (count_label key labels <= 1)%nat ->
  exists b, Pandas.truth (Pandas.get labels name values key default) = Ok b.
Proof.
  intros Hcount. pose proof (select_length key labels values) as Hlen.
  unfold Pandas.get.
  destruct (Pandas.select key labels values) as [|c [|c' cs]].
  - cbn. eauto.
  - destruct c; cbn; eauto.
  - cbn in Hlen. lia.
Qed.

Lemma transform_rows_all_skipped
  (series_str : string -> list cell -> nat -> string)
  (labels : list cell) (rows : list (nat * list cell)) :
  (forall row, In row rows -> transform_row series_str labels row = Ok None) ->
  transform_rows series_str labels rows = Ok [].
Proof.
  induction rows as [|row rows IH]; intros H; [reflexivity|].
  cbn. rewrite (H row) by now left. cbn.
  rewrite IH by (intros; apply H; now right). reflexivity.
Qed.

(** X10: When no column is labelled [Withdrawal / Deposit] (and at most one
    [Date]), every row is skipped: the transformation succeeds with no
    record. *)
Theorem clean_and_transform_no_amount_column
  (series_str : string -> list cell -> nat -> string)
  (headers : raw_row) (data : list raw_row) :
  has_label "Withdrawal / Deposit" headers = false ->
  (count_label "Date" headers <= 1)%nat ->
  (forall r, In r data -> (length r <= length headers)%nat) ->
  (exists r, In r data /\ length r = length headers) \/ data = [] ->
  clean_and_transform series_str (headers :: data) = Ok [].
Proof.
  intros Hwd Hdate Hle Hfull.
  cbn [clean_and_transform].
  assert (Hmake : exists df, Pandas.make data headers = Ok df
                             /\ Pandas.columns df = headers).
  { unfold Pandas.make. destruct data as [|r0 data]; [eauto|].
    destruct Hfull as [(r & Hin & Hlen)|]; [|discriminate].
    pose proof (width_ge r _ Hin) as Hw.
    assert (Hmax : (Pandas.width (r0 :: data) <= length headers)%nat).
    { clear -Hle. induction (r0 :: data) as [|x l IH]; [cbn; lia|].
      unfold Pandas.width in *. cbn [fold_right].
      pose proof (Hle x (or_introl eq_refl)).
      assert (forall r, In r l -> (length r <= length headers)%nat)
        by (intros; apply Hle; now right).
      specialize (IH H0). lia. }
    destruct (Nat.eqb_spec (Pandas.width (r0 :: data)) (length headers));
      [eauto | lia]. }
  destruct Hmake as (df & -> & Hcols). cbn [mbind result_bind].
  apply transform_rows_all_skipped. intros row _.
  cbn [Pandas.dropna_all Pandas.columns]. rewrite Hcols.
  assert (Hget : Pandas.get headers (fst row) (snd row) "Withdrawal / Deposit" ""
                 = PStr "").
  { unfold Pandas.get. now rewrite select_no_label. }
  unfold transform_row. cbn zeta. rewrite Hget.
  destruct (get_single_truth headers (fst row) (snd row) "Date" "" Hdate)
    as [b ->].
  reflexivity.
Qed.

Lemma clean_and_transform_no_amount_column_witness :
  clean_and_transform no_series [amount_header; grocery_row] = Ok [].
Proof.
  apply (clean_and_transform_no_amount_column no_series amount_header [grocery_row]).
  - reflexivity.
  - vm_compute; lia.
  - intros r [<-|[]]. vm_compute; lia.
  - left. exists grocery_row. split; [now left | reflexivity].
Defined.

(** ** Header rows among the data *)

Lemma select_same (key : string) (labels : list cell) :
  Forall (fun v => v = Some key) (Pandas.select key labels labels).
Proof.
  induction labels as [|l labels IH]; [constructor|].
  cbn. destruct (Pandas.label_is key l) eqn:Hl; [|exact IH].
  constructor; [|exact IH].
  destruct l as [s|]; [|discriminate].
  cbn in Hl. apply String.eqb_eq in Hl. now subst.
Qed.

(** X11: The header row of a further table (the extraction keeps one for every
    table) is skipped like a row without amount, as long as at most one
    column is labelled [Date] and at most one [Withdrawal / Deposit]. *)
Theorem repeated_header_skipped
  (series_str : string -> list cell -> nat -> string)
  (headers : raw_row) (i : nat) :
  (count_label "Date" headers <= 1)%nat ->
  (count_label "Withdrawal / Deposit" headers <= 1)%nat ->
  transform_row series_str headers (i, headers) = Ok None.
Proof.
  intros Hdate Hwd.
  assert (Hget : parse_amount (Pandas.get headers i headers "Withdrawal / Deposit" "")
                 = Ok (None, None)).
  { pose proof (select_length "Withdrawal / Deposit" headers headers) as Hlen.
    pose proof (select_same "Withdrawal / Deposit" headers) as Hsame.
    unfold Pandas.get.
    destruct (Pandas.select "Withdrawal / Deposit" headers headers)
      as [|c [|c' cs]].
    - reflexivity.
    - apply Forall_inv in Hsame. subst c. vm_compute; reflexivity.
    - cbn in Hlen. lia. }
  unfold transform_row. cbn zeta. cbn [fst snd]. rewrite Hget.
  destruct (get_single_truth headers i headers "Date" "" Hdate) as [b ->].
  reflexivity.
Qed.

Lemma repeated_header_skipped_witness :
  transform_row no_series statement_header (7%nat, statement_header) = Ok None.
Proof.
  apply (repeated_header_skipped no_series statement_header 7);
    vm_compute; lia.
Defined.

(** ** What [convert] does to the files *)

Lemma flat_map_tables (tables : list table) :
  flat_map (fun t : table => match t with [] => [] | _ => t end) tables
  = List.concat tables.
Proof.
  induction tables as [|t tables IH]; [reflexivity|].
  cbn. rewrite IH. now destruct t.
Qed.

Lemma flat_map_pages (pages : list (list table)) :
  flat_map (fun tables =>
              flat_map (fun t : table => match t with [] => [] | _ => t end)
                       tables) pages
  = all_rows pages.
Proof.
  unfold all_rows. induction pages as [|tables pages IH]; [reflexivity|].
  cbn [flat_map List.concat]. rewrite flat_map_tables, concat_app.
  now f_equal.
Qed.

(** X14: The extraction returns the rows of every table of every page in their
    order, the header rows included (the test [if table] leaves nothing
    out), and changes neither the files nor the output. *)
Theorem extract_tables_all_rows
  (self : BankStatementConverter) (w : World) (pages : list (list table)) :
  files w !! input_path self = Some (Pdf pages) ->
  extract_tables_from_pdf self w = (Ok (all_rows pages), w).
Proof.
  intros Hfile. unfold extract_tables_from_pdf. rewrite Hfile.
  now rewrite flat_map_pages.
Qed.

Lemma extract_tables_all_rows_witness :
  extract_tables_from_pdf blank_job blank_pdf_world = (Ok [], blank_pdf_world).
Proof.
  apply (extract_tables_all_rows blank_job blank_pdf_world [[]; [[]]]).
  vm_compute; reflexivity.
Defined.

Lemma convert_effect
  (series_str : string -> list cell -> nat -> string)
  (self : BankStatementConverter) (w : World) :
  match convert series_str self w with
  | (Raise _, w') => files w' = files w
  | (Ok path, w') =>
      path = output_path self
      /\ exists pages df,
           files w !! input_path self = Some (Pdf pages)
           /\ clean_and_transform series_str (all_rows pages) = Ok df
           /\ files w' = <[output_path self := Text (Csv.to_csv df)]> (files w)
  end.
Proof.
  unfold convert, mbind, io_bind, print, raise, lift, write_file, mret, io_ret.
  cbn [files stdout].
  set (w1 := {| files := files w; stdout := _ |}).
  rewrite (extract_tables_files self w w1) by reflexivity.
  destruct (files w !! input_path self) as [[pages|error|text]|] eqn:Hfile.
  - rewrite (extract_tables_all_rows self w pages) by exact Hfile.
    cbn [fst].
    destruct (all_rows pages) as [|r0 rows] eqn:Hrows; [reflexivity|].
    cbn [files stdout].
    destruct (clean_and_transform series_str (r0 :: rows)) as [df|e] eqn:Hdf;
      [|reflexivity].
    cbn [files stdout]. split; [reflexivity|].
    exists pages, df. rewrite Hrows. auto.
  - unfold extract_tables_from_pdf. rewrite Hfile. reflexivity.
  - unfold extract_tables_from_pdf. rewrite Hfile. reflexivity.
  - unfold extract_tables_from_pdf. rewrite Hfile. reflexivity.
Qed.

(** X15: [convert] writes nothing when it fails, and when it succeeds it has
    written one file, the CSV text of the records at its output path, which
    it returns. *)
Theorem convert_files
  (series_str : string -> list cell -> nat -> string)
  (self : BankStatementConverter) (w : World) :
  match convert series_str self w with
  | (Raise _, w') => files w' = files w
  | (Ok path, w') =>
      path = output_path self
      /\ exists pages df,
           files w !! input_path self = Some (Pdf pages)
           /\ clean_and_transform series_str (all_rows pages) = Ok df
           /\ files w' = <[output_path self := Text (Csv.to_csv df)]> (files w)
  end.
Proof.
  exact (convert_effect series_str self w).
Qed.

(** ** What a request to [/convert] leaves behind *)

Lemma upload_not_download (job_id filename job_id' : string) :
  upload_path job_id filename <> download_path job_id'.
Proof. unfold upload_path, download_path. cbn. discriminate. Qed.

Lemma convert_pdf_effect
  (series_str : string -> list cell -> nat -> string)
  (filename : string) (body : content) (job_id : string) (w : World) :
  PyStr.endswith filename ".pdf" = true ->
  match convert_pdf series_str filename body job_id w with
  | (FileResponse path media_type name, w') =>
      path = download_path job_id /\ media_type = "text/csv"
      /\ name = stem filename +:+ "_firefly.csv"
      /\ exists df,
           files w' = <[download_path job_id := Text (Csv.to_csv df)]>
                        (delete (upload_path job_id filename) (files w))
  | (HTTPException status_code detail, w') =>
      status_code = 500%nat
      /\ (exists e, detail = "Conversion failed: " +:+ exn_str e)
      /\ files w' = delete (upload_path job_id filename) (files w)
  end.
Proof.
  intros Hname. unfold convert_pdf. rewrite Hname. cbn [negb].
  fold (upload_path job_id filename). fold (download_path job_id).
  unfold mbind at 1. unfold io_bind at 1. unfold save_upload.
  destruct (PyStr.contains "/" (job_id +:+ "_" +:+ filename)).
  - unfold raise, unlink_if_exists. cbn [files].
    split; [reflexivity|]. split; [eauto | reflexivity].
  - unfold write_file at 1.
    change (UPLOAD_DIR +:+ "/" +:+ (job_id +:+ "_" +:+ filename))
      with (upload_path job_id filename).
    set (w1 := {| files := _; stdout := stdout w |}).
    pose proof (convert_effect series_str
                  {| input_path := upload_path job_id filename;
                     output_path := download_path job_id |} w1) as Hc.
    destruct (convert series_str _ w1) as [[path|e] w2]; cbn [input_path output_path] in Hc.
    + destruct Hc as (_ & pages & df & _ & _ & Hfiles).
      unfold unlink_if_exists. cbn [files].
      repeat split; try reflexivity.
      exists df. rewrite Hfiles. subst w1. cbn [files].
      rewrite delete_insert_ne by apply upload_not_download.
      now rewrite delete_insert_eq.
    + unfold unlink_if_exists. cbn [files].
      repeat split; eauto.
      rewrite Hc. subst w1. cbn [files]. now rewrite delete_insert_eq.
Qed.

(** X16: A request to [/convert] with a name ending in [.pdf] is answered either
    with the CSV file, which stays in the output directory, or with status
    500 and the message of the error, and then no file is left; in both
    cases the stored upload is gone and no other file is touched. *)
Theorem convert_pdf_outcomes
  (series_str : string -> list cell -> nat -> string)
  (filename : string) (body : content) (job_id : string) (w : World) :
  PyStr.endswith filename ".pdf" = true ->
  match convert_pdf series_str filename body job_id w with
  | (FileResponse path media_type name, w') =>
      path = download_path job_id /\ media_type = "text/csv"
      /\ name = stem filename +:+ "_firefly.csv"
      /\ exists df,
           files w' = <[download_path job_id := Text (Csv.to_csv df)]>
                        (delete (upload_path job_id filename) (files w))
  | (HTTPException status_code detail, w') =>
      status_code = 500%nat
      /\ (exists e, detail = "Conversion failed: " +:+ exn_str e)
      /\ files w' = delete (upload_path job_id filename) (files w)
  end.
Proof.
  exact (convert_pdf_effect series_str filename body job_id w).
Qed.

Lemma convert_pdf_outcomes_witness :
  match convert_pdf no_series "jan.pdf" grocery_pdf "0b5f" empty_world with
  | (FileResponse path media_type name, w') =>
      path = download_path "0b5f" /\ media_type = "text/csv"
      /\ name = stem "jan.pdf" +:+ "_firefly.csv"
      /\ exists df,
           files w' = <[download_path "0b5f" := Text (Csv.to_csv df)]>
                        (delete (upload_path "0b5f" "jan.pdf") (files empty_world))
  | (HTTPException status_code detail, w') =>
      status_code = 500%nat
      /\ (exists e, detail = "Conversion failed: " +:+ exn_str e)
      /\ files w' = delete (upload_path "0b5f" "jan.pdf") (files empty_world)
  end.
Proof.
  apply (convert_pdf_outcomes no_series "jan.pdf" grocery_pdf "0b5f" empty_world).
  reflexivity.
Defined.

(** X17: Whatever the outcome, the upload is not in the upload directory any
    more when the request is answered. *)
Theorem convert_pdf_removes_upload
  (series_str : string -> list cell -> nat -> string)
  (filename : string) (body : content) (job_id : string) (w : World) :
  PyStr.endswith filename ".pdf" = true ->
  files (snd (convert_pdf series_str filename body job_id w))
    !! upload_path job_id filename = None.
Proof.
  intros Hname.
  pose proof (convert_pdf_effect series_str filename body job_id w Hname) as H.
  destruct (convert_pdf series_str filename body job_id w)
    as [[path media_type name|status_code detail] w']; cbn [snd].
  - destruct H as (_ & _ & _ & df & ->).
    rewrite lookup_insert_ne by (intros E; symmetry in E; revert E; apply upload_not_download).
    apply lookup_delete_eq.
  - destruct H as (_ & _ & ->). apply lookup_delete_eq.
Qed.

Lemma convert_pdf_removes_upload_witness :
  files (snd (convert_pdf no_series "jan.pdf" grocery_pdf "0b5f" empty_world))
    !! upload_path "0b5f" "jan.pdf" = None.
Proof.
  apply (convert_pdf_removes_upload no_series "jan.pdf" grocery_pdf "0b5f" empty_world).
  reflexivity.
Defined.

(** ** The name of the download *)

Lemma contains_char_cons (c a : ascii) (s : string) :
  PyStr.contains (String c EmptyString) (String a s)
  = Ascii.eqb c a || PyStr.contains (String c EmptyString) s.
Proof.
  cbn [PyStr.contains]. rewrite prefix_cons.
  replace (String.prefix "" s) with true by now destruct s.
  now rewrite andb_true_r.
Qed.

Lemma rfind_absent (c : ascii) (s : string) :
  PyStr.contains (String c EmptyString) s = false -> rfind c s = None.
Proof.
  induction s as [|a s IH]; [reflexivity|].
  rewrite contains_char_cons. intros [Ha Hs]%orb_false_iff.
  cbn. rewrite (IH Hs). rewrite Ascii.eqb_sym in Ha. now rewrite Ha.
Qed.

Lemma rfind_last (c : ascii) (u v : string) :
  rfind c v = None -> rfind c (u +:+ String c v) = Some (String.length u).
Proof.
  intros Hv. induction u as [|a u IH].
  - change (rfind c (String c v) = Some 0%nat).
    cbn [rfind]. now rewrite Hv, Ascii.eqb_refl.
  - change (String a u +:+ String c v) with (String a (u +:+ String c v)).
    cbn [rfind]. now rewrite IH.
Qed.

Lemma contains_char_app (c : ascii) (u v : string) :
  PyStr.contains (String c EmptyString) (u +:+ v)
  = PyStr.contains (String c EmptyString) u || PyStr.contains (String c EmptyString) v.
Proof.
  induction u as [|a u IH].
  - cbn [String.append]. now destruct v.
  - change (String a u +:+ v) with (String a (u +:+ v)).
    now rewrite !contains_char_cons, IH, orb_assoc.
Qed.

Lemma take_app (u v : string) : PyStr.take (String.length u) (u +:+ v) = u.
Proof.
  induction u as [|a u IH]; [now destruct v|]. simpl. now f_equal.
Qed.

Lemma stem_pdf (base : string) :
  base <> EmptyString -> PyStr.contains "/" base = false ->
  stem (base +:+ ".pdf") = base.
Proof.
  intros Hne Hslash. unfold stem.
  rewrite (rfind_absent "/") by (rewrite contains_char_app, Hslash; reflexivity).
  rewrite (rfind_last "." base "pdf") by reflexivity.
  rewrite length_append.
  replace ((0 <? String.length base)%nat) with true
    by (destruct base; [congruence | reflexivity]).
  replace (String.length base <? String.length base + String.length ".pdf" - 1)%nat
    with true by (symmetry; apply Nat.ltb_lt; cbn; lia).
  cbn [andb]. apply take_app.
Qed.

(** X18: For an upload [base.pdf] whose [base] is not empty and has no slash,
    the stem is [base]: the download is offered as [base_firefly.csv]. *)
Theorem stem_of_pdf_name (base : string) :
  base <> EmptyString -> PyStr.contains "/" base = false ->
  stem (base +:+ ".pdf") = base.
Proof.
  exact (stem_pdf base).
Qed.

Lemma stem_of_pdf_name_witness : stem ("jan.2024" +:+ ".pdf") = "jan.2024".
Proof. apply stem_of_pdf_name; [discriminate | reflexivity]. Defined.

(** ** What a request to [/convert-json] leaves behind *)

Lemma read_text_files (path : string) (w : World) :
  files (snd (read_text path w)) = files w.
Proof.
  unfold read_text. destruct (files w !! path) as [[pages|error|text]|]; reflexivity.
Qed.

(** X19: A request to [/convert-json] with a name ending in [.pdf] leaves
    neither the upload nor the CSV file behind, whether it succeeds or
    fails, and touches no other file.  When it answers with a JSON
    response, the upload was a PDF, the transformation of the rows of its
    tables succeeded, and the content of the response is what is made of
    the CSV text of those very records; otherwise the answer is status 500
    with the message of the error. *)
Theorem convert_pdf_json_outcomes
  (series_str : string -> list cell -> nat -> string)
  (json_content : string -> string -> result string)
  (filename : string) (body : content) (job_id : string) (w : World) :
  PyStr.endswith filename ".pdf" = true ->
  match convert_pdf_json series_str json_content filename body job_id w with
  | (reply, w') =>
      files w'
      = delete (download_path job_id) (delete (upload_path job_id filename) (files w))
      /\ match reply with
         | JSONResponse content =>
             exists pages df,
               body = Pdf pages
               /\ clean_and_transform series_str (all_rows pages) = Ok df
               /\ json_content filename (Csv.to_csv df) = Ok content
         | JSONException status_code detail =>
             status_code = 500%nat
             /\ exists e, detail = "Conversion failed: " +:+ exn_str e
         end
  end.
Proof.
  intros Hname. unfold convert_pdf_json. rewrite Hname. cbn [negb].
  fold (upload_path job_id filename). fold (download_path job_id).
  unfold mbind at 1. unfold io_bind at 1. unfold save_upload.
  destruct (PyStr.contains "/" (job_id +:+ "_" +:+ filename)).
  - unfold raise, unlink_if_exists. cbn [files].
    split; [reflexivity|]. split; [reflexivity | eauto].
  - unfold write_file at 1.
    change (UPLOAD_DIR +:+ "/" +:+ (job_id +:+ "_" +:+ filename))
      with (upload_path job_id filename).
    set (w1 := {| files := _; stdout := stdout w |}).
    unfold mbind at 1. unfold io_bind at 1.
    pose proof (convert_effect series_str
                  {| input_path := upload_path job_id filename;
                     output_path := download_path job_id |} w1) as Hc.
    destruct (convert series_str _ w1) as [[path|e] w2]; cbn [input_path output_path] in Hc.
    + destruct Hc as (_ & pages & df & Hbody & Hdf & Hfiles).
      subst w1. cbn [files] in Hbody. rewrite lookup_insert_eq in Hbody.
      injection Hbody as ->.
      unfold mbind, io_bind, lift, read_text.
      rewrite Hfiles, lookup_insert_eq.
      assert (Hdel : delete (download_path job_id)
                       (delete (upload_path job_id filename) (files w2))
                     = delete (download_path job_id)
                         (delete (upload_path job_id filename) (files w))).
      { rewrite Hfiles. cbn [files].
        rewrite (delete_insert_ne _ (upload_path job_id filename))
          by apply upload_not_download.
        now rewrite delete_insert_eq, delete_insert_eq. }
      destruct (json_content filename (Csv.to_csv df)) as [content|e] eqn:Hjson;
        unfold unlink_if_exists; cbn [files].
      * split; [exact Hdel | eauto].
      * split; [exact Hdel | split; [reflexivity | eauto]].
    + unfold unlink_if_exists. cbn [files].
      split; [|split; [reflexivity | eauto]].
      rewrite Hc. subst w1. cbn [files]. now rewrite delete_insert_eq.
Qed.

Lemma convert_pdf_json_outcomes_witness :
  match convert_pdf_json no_series nan_refused "jan.pdf" grocery_pdf "0b5f" empty_world with
  | (reply, w') =>
      files w'
      = delete (download_path "0b5f") (delete (upload_path "0b5f" "jan.pdf") (files empty_world))
      /\ match reply with
         | JSONResponse content =>
             exists pages df,
               grocery_pdf = Pdf pages
               /\ clean_and_transform no_series (all_rows pages) = Ok df
               /\ nan_refused "jan.pdf" (Csv.to_csv df) = Ok content
         | JSONException status_code detail =>
             status_code = 500%nat
             /\ exists e, detail = "Conversion failed: " +:+ exn_str e
         end
  end.
Proof.
  apply (convert_pdf_json_outcomes no_series nan_refused "jan.pdf" grocery_pdf "0b5f").
  reflexivity.
Defined.

(** ** The default output path *)

Lemma split_from_no_slash (s : string) :
  forall cur,
    PyStr.contains "/" cur = false ->
    Forall (fun x => PyStr.contains "/" x = false) (Posix.split_from cur s).
Proof.
  induction s as [|c s IH]; intros cur Hcur; cbn [Posix.split_from].
  - constructor; [exact Hcur | constructor].
  - destruct (Ascii.eqb c "/") eqn:Hc.
    + constructor; [exact Hcur | now apply IH].
    + apply IH. rewrite contains_char_app, Hcur, contains_char_cons.
      rewrite Ascii.eqb_sym, Hc. reflexivity.
Qed.

Lemma component_no_slash (input x : string) :
  In x (Posix.tail (Posix.parse input)) -> PyStr.contains "/" x = false.
Proof.
  cbn [Posix.parse Posix.tail]. intros [Hin _]%filter_In.
  pose proof (split_from_no_slash input EmptyString eq_refl) as Hall.
  rewrite List.Forall_forall in Hall. now apply Hall.
Qed.

(** X20: Without an output path, the converter for an input whose last component
    is [base.pdf] writes to [base_firefly.csv] in the same directory: the
    root and the directories of the two paths are the same. *)
Theorem default_output_beside_input
  (input : string) (dir : list string) (base : string) :
  Posix.tail (Posix.parse input) = dir ++ [base +:+ ".pdf"] ->
  base <> EmptyString ->
  new_converter input None
  = {| input_path := Posix.str (Posix.parse input);
       output_path :=
         Posix.str {| Posix.root := Posix.root (Posix.parse input);
                      Posix.tail := dir ++ [base +:+ "_firefly.csv"] |} |}.
Proof.
  intros Htail Hbase.
  assert (Hslash : PyStr.contains "/" base = false).
  { pose proof (component_no_slash input (base +:+ ".pdf")) as H.
    rewrite Htail in H. specialize (H (in_elt _ _ _)).
    rewrite contains_char_app in H. now apply orb_false_iff in H as [H _]. }
  unfold new_converter, Posix.child, Posix.parent, Posix.name.
  cbn [Posix.root Posix.tail]. rewrite Htail.
  now rewrite removelast_last, last_last, stem_pdf.
Qed.

Lemma default_output_beside_input_witness :
  new_converter "/data//2024/./jan.pdf" None
  = {| input_path := "/data/2024/jan.pdf";
       output_path := "/data/2024/jan_firefly.csv" |}.
Proof.
  apply (default_output_beside_input "/data//2024/./jan.pdf" ["data"; "2024"] "jan").
  - reflexivity.
  - discriminate.
Defined.

(** ** The command *)

(** X22: The command stops with status 1 and the usage line when no input is
    named; else it ends by an exception, and then no file has changed, or
    it finishes having written one file, the CSV text of the records at the
    output path of its converter. *)
Theorem main_files
  (series_str : string -> list cell -> nat -> string)
  (argv : list string) (w : World) :
  match main series_str argv w with
  | (Exit code, w') =>
      code = 1%nat /\ (length argv < 2)%nat /\ w' = with_line w usage_line
  | (Uncaught e, w') => (2 <= length argv)%nat /\ files w' = files w
  | (Finished, w') =>
      exists prog input rest df,
        argv = prog :: input :: rest
        /\ files w'
           = <[output_path (new_converter input (head rest))
               := Text (Csv.to_csv df)]> (files w)
  end.
Proof.
  unfold main. destruct argv as [|prog [|input rest]].
  - split; [reflexivity|]. split; [cbn; lia | reflexivity].
  - split; [reflexivity|]. split; [cbn; lia | reflexivity].
  - replace (match rest with [] => None | o :: _ => Some o end)
      with (head rest) by now destruct rest.
    pose proof (convert_effect series_str
                  (new_converter input (head rest)) w) as Hc.
    destruct (convert series_str _ w) as [[path|e] w'].
    + destruct Hc as (_ & pages & df & _ & _ & Hfiles).
      exists prog, input, rest, df. auto.
    + split; [cbn; lia | exact Hc].
Qed.

(** ** The default output is another file *)

Lemma append_cancel_l (u a b : string) : u +:+ a = u +:+ b -> a = b.
Proof.
  induction u as [|c u IH]; [auto|].
  change (String c (u +:+ a) = String c (u +:+ b) -> a = b).
  intros [= H]. auto.
Qed.

Lemma append_not_longer (n x : string) : n +:+ x = n -> x = EmptyString.
Proof.
  intros H. apply (f_equal String.length) in H.
  rewrite length_append in H. destruct x; [reflexivity | cbn in H; lia].
Qed.

Lemma take_drop (i : nat) (n : string) : PyStr.take i n +:+ PyStr.drop i n = n.
Proof.
  revert n. induction i as [|i IH]; intros n; [now destruct n|].
  destruct n as [|c n]; [reflexivity|].
  change (String c (PyStr.take i n +:+ PyStr.drop i n) = String c n).
  f_equal. apply IH.
Qed.

Lemma rfind_drop (c : ascii) (n : string) :
  forall i, rfind c n = Some i -> exists rest, PyStr.drop i n = String c rest.
Proof.
  induction n as [|a n IH]; intros i Hi; [discriminate|].
  cbn [rfind] in Hi. destruct (rfind c n) as [j|].
  - injection Hi as <-. cbn [PyStr.drop]. now apply IH.
  - destruct (Ascii.eqb_spec a c) as [->|]; [|discriminate].
    injection Hi as <-. cbn [PyStr.drop]. eauto.
Qed.

Lemma append_empty_r (n : string) : n +:+ EmptyString = n.
Proof.
  induction n as [|c n IH]; [reflexivity|].
  change (String c (n +:+ EmptyString) = String c n). now f_equal.
Qed.

(** The stem of a name is the name without an ending that is empty or
    starts with a point. *)
Lemma stem_cuts (n : string) :
  PyStr.contains "/" n = false ->
  exists suffix,
    n = stem n +:+ suffix
    /\ (suffix = EmptyString \/ exists rest, suffix = String "." rest).
Proof.
  intros Hslash. unfold stem. rewrite (rfind_absent "/") by exact Hslash.
  destruct (rfind "." n) as [i|] eqn:Hi.
  - destruct (_ && _).
    + exists (PyStr.drop i n). split; [now rewrite take_drop|].
      right. exact (rfind_drop "." n i Hi).
    + exists EmptyString. split; [|now left]. now rewrite append_empty_r.
  - exists EmptyString. split; [|now left]. now rewrite append_empty_r.
Qed.

Lemma stem_firefly_differs (n : string) :
  PyStr.contains "/" n = false -> stem n +:+ "_firefly.csv" <> n.
Proof.
  intros Hslash Heq.
  destruct (stem_cuts n Hslash) as (suffix & Hn & Hsuffix).
  rewrite Hn in Heq at 2. apply append_cancel_l in Heq.
  destruct Hsuffix as [->|[rest ->]]; discriminate.
Qed.

Lemma concat_last (l : list string) (x : string) :
  String.concat "/" (l ++ [x]) = dirs l +:+ x.
Proof.
  induction l as [|a l IH]; [reflexivity|].
  cbn [app dirs]. rewrite !append_assoc, <- IH.
  destruct (l ++ [x]) eqn:Hl; [now destruct l | reflexivity].
Qed.

Lemma str_with_tail (r : string) (l : list string) (x : string) :
  Posix.str {| Posix.root := r; Posix.tail := l ++ [x] |}
  = r +:+ dirs l +:+ x.
Proof.
  unfold Posix.str. cbn [Posix.root Posix.tail]. rewrite <- concat_last.
  destruct (l ++ [x]) eqn:Hl; [now destruct l|].
  now destruct r.
Qed.

(** X21: Without an output path, the converter never writes over its input: the
    default output path is not the input path. *)
Theorem default_output_differs (input : string) :
  output_path (new_converter input None) <> input_path (new_converter input None).
Proof.
  pose proof (component_no_slash input) as Hcomp.
  unfold new_converter. cbn [output_path input_path].
  unfold Posix.child, Posix.parent, Posix.name.
  destruct (Posix.parse input) as [r t]. cbn [Posix.root Posix.tail] in *.
  destruct t as [|x0 t0].
  - cbn [removelast List.last].
    change (stem EmptyString) with EmptyString.
    rewrite (str_with_tail _ []).
    unfold Posix.str. cbn [Posix.root Posix.tail dirs].
    destruct r as [|c r].
    + discriminate.
    + intros H. apply (f_equal String.length) in H.
      rewrite !length_append in H. cbn in H. lia.
  - destruct (exists_last (l := x0 :: t0) ltac:(discriminate)) as (l & n & Hl).
    rewrite Hl in *. rewrite removelast_last, last_last, !str_with_tail.
    intros H. apply append_cancel_l, append_cancel_l in H.
    revert H. apply stem_firefly_differs.
    apply Hcomp. apply in_elt.
Qed.

(** ** Cells that are missing *)

(** X13: In a row that is kept, a Channel cell that is [None] (an empty cell of
    the table, or the filling of a short row) gives the Category the text
    [None]. *)
Theorem missing_channel_text
  (series_str : string -> list cell -> nat -> string)
  (labels : list cell) (row : nat * list cell) (t : OutputTransaction) :
  transform_row series_str labels row = Ok (Some t) ->
  Pandas.select "Channel" labels (snd row) = [None] ->
  Category t = "None".
Proof.
  intros Hrow Hsel. rewrite (transform_row_category _ _ _ _ Hrow).
  unfold Pandas.get. rewrite Hsel. reflexivity.
Qed.

Lemma missing_channel_text_witness :
  exists t,
    transform_row no_series statement_header
      (1%nat, Pandas.pad (length statement_header) short_row) = Ok (Some t)
    /\ Category t = "None".
Proof.
  eexists. split; [vm_compute; reflexivity|].
  apply (missing_channel_text no_series statement_header
           (1%nat, Pandas.pad (length statement_header) short_row));
    vm_compute; reflexivity.
Defined.

(** ** Runs that are no number *)

Lemma digit_not_point (c : ascii) : PyStr.is_digit c = true -> Ascii.eqb c "." = false.
Proof.
  intros Hc. apply Ascii.eqb_neq. intros ->. discriminate.
Qed.

Lemma scan_two_points (s : string) :
  forall (dot : bool) (acc : N) (frac ndig : nat),
    (2 <= points s + (if dot then 1 else 0))%nat ->
    PyFloat.scan s dot acc frac ndig = None.
Proof.
  induction s as [|c s IH]; intros dot acc frac ndig Hp.
  - cbn in Hp. destruct dot; lia.
  - cbn [PyFloat.scan]. cbn [points] in Hp.
    destruct (PyStr.is_digit c) eqn:Hd.
    + rewrite (digit_not_point c Hd) in Hp. now apply IH.
    + destruct (Ascii.eqb c "."); [|reflexivity].
      destruct dot; [reflexivity|]. apply IH. lia.
Qed.

Lemma scan_no_digit (s : string) :
  forall (dot : bool) (acc : N) (frac : nat),
    has_digit s = false -> PyFloat.scan s dot acc frac 0 = None.
Proof.
  induction s as [|c s IH]; intros dot acc frac Hd; [reflexivity|].
  cbn [has_digit] in Hd. apply orb_false_iff in Hd as [Hc Hs].
  cbn [PyFloat.scan]. rewrite Hc.
  destruct (Ascii.eqb c "."); [|reflexivity].
  destruct dot; [reflexivity|]. now apply IH.
Qed.

(** X23: For a text of ASCII characters and Baht signs: when the first run
    of digits and points of its cleaned form has two points or more, or no
    digit, [float] refuses it, and [parse_amount] raises the [ValueError] of
    [float], whatever words the text holds. *)
Theorem parse_amount_raises_on_bad_run (s g : string) :
  plain_text s = true ->
  Re.search (clean_value s) = Some g ->
  (2 <= points g)%nat \/ has_digit g = false ->
  parse_amount (PStr s)
  = Raise (ValueError ("could not convert string to float: '" +:+ g +:+ "'")).
Proof.
  intros _ Hsearch Hbad.
  unfold parse_amount. cbn [Pandas.truth Pandas.isna str_scalar].
  rewrite (search_nonempty s g Hsearch). cbn.
  unfold parse_text. rewrite Hsearch. unfold PyFloat.of_text.
  replace (PyFloat.scan g false 0 0 0) with (@None (N * nat)); [reflexivity|].
  symmetry. destruct Hbad as [Hp|Hd].
  - apply scan_two_points. lia.
  - now apply scan_no_digit.
Qed.

Lemma parse_amount_raises_on_bad_run_witness :
  parse_amount (PStr "CR 05.01.2024")
  = Raise (ValueError "could not convert string to float: '05.01.2024'").
Proof.
  apply (parse_amount_raises_on_bad_run "CR 05.01.2024" "05.01.2024").
  - vm_compute; reflexivity.
  - vm_compute; reflexivity.
  - left. vm_compute; lia.
Defined.

(** ** A sign behind the currency sign *)

Lemma rstrip_cons (c : ascii) (s : string) :
  PyStr.rstrip s = s -> s <> EmptyString -> PyStr.rstrip (String c s) = String c s.
Proof.
  intros Hs Hne. cbn [PyStr.rstrip]. rewrite Hs. now destruct s.
Qed.

(** X24: The text is stripped before the currency signs are taken out: a minus
    sign that follows a dollar sign and a blank is not at the start of the
    cleaned text, and the amount is returned as a deposit. *)
Theorem parse_amount_sign_after_currency (n : string) :
  unsigned_numeral n = true ->
  exists a, PyFloat.of_text n = Ok a
            /\ parse_amount (PStr ("$ -" +:+ n)) = Ok (None, Some a).
Proof.
  intros Hnum.
  destruct (of_text_numeral n Hnum) as [a Ha]. exists a. split; [exact Ha|].
  unfold unsigned_numeral in Hnum.
  apply andb_true_iff in Hnum as [[Hs _]%andb_true_iff Hd].
  assert (Hne : n <> EmptyString) by (intros ->; discriminate).
  assert (Hclean : clean_value ("$ -" +:+ n) = String " " (String "-" n)).
  { unfold clean_value, PyStr.strip, baht.
    change ("$ -" +:+ n) with (String "$" (String " " (String "-" n))).
    assert (H1 : PyStr.rstrip (String "-" n) = String "-" n)
      by (apply rstrip_cons; [now apply rstrip_numeral | exact Hne]).
    assert (H2 : PyStr.rstrip (String " " (String "-" n)) = String " " (String "-" n))
      by (apply rstrip_cons; [exact H1 | discriminate]).
    rewrite (rstrip_cons "$" _ H2) by discriminate.
    cbn [PyStr.lstrip]. replace (PyStr.is_space "$") with false by reflexivity.
    replace (PyStr.remove "$" (String "$" (String " " (String "-" n))))
      with (PyStr.remove "$" (String " " (String "-" n)))
      by (unfold PyStr.remove; cbn [PyStr.remove_from]; rewrite prefix_cons;
          now destruct (String.prefix "" _)).
    rewrite !remove_cons_other by discriminate.
    rewrite (remove_outside "$") by (assumption || reflexivity).
    rewrite (remove_outside (ascii_of_nat 224)) by (assumption || reflexivity).
    now rewrite (remove_outside ",") by (assumption || reflexivity). }
  apply (parse_text_deposit ("$ -" +:+ n) n a); rewrite ?Hclean.
  - cbn [PyStr.lower PyStr.contains]. rewrite !prefix_cons.
    rewrite lower_numeral by assumption.
    now rewrite (contains_outside "d") by (assumption || reflexivity).
  - unfold PyStr.startswith. now rewrite prefix_cons.
  - change (Re.search (String " " (String "-" n))) with (Re.search n).
    now apply search_numeral.
  - exact Ha.
Qed.

Lemma parse_amount_sign_after_currency_witness :
  exists a, PyFloat.of_text "45.00" = Ok a
            /\ parse_amount (PStr ("$ -" +:+ "45.00")) = Ok (None, Some a).
Proof.
  apply (parse_amount_sign_after_currency "45.00"). vm_compute; reflexivity.
Defined.

(** ** The Notes of a record *)

(** X25: The Notes of every record of the output are empty, or the label
    [Time/Eff.Date: ] followed by a text that is not empty. *)
Theorem record_notes
  (series_str : string -> list cell -> nat -> string)
  (headers : raw_row) (data : list raw_row)
  (out : list OutputTransaction) (t : OutputTransaction) :
  clean_and_transform series_str (headers :: data) = Ok out ->
  In t out ->
  Notes t = EmptyString
  \/ exists time, PyStr.truthy time = true /\ Notes t = notes_label +:+ time.
Proof.
  intros Hout Hin.
  destruct (emitted_from_row _ _ _ _ _ Hout Hin) as (i & r & _ & Hrow).
  revert Hrow. unfold transform_row. cbn [fst snd].
  destruct (Pandas.truth (Pandas.get headers i _ "Date" "")) as [has_date|e];
    cbn; [|discriminate].
  destruct (parse_amount _) as [[w d]|e]; cbn; [|discriminate].
  destruct (negb (is_some w) && negb (is_some d)); [discriminate|].
  destruct (Pandas.get headers i _ "Time/Eff.Date" "") as [|time|z|x|l vs n] eqn:Htime;
    cbn; try discriminate.
  - intros [= <-]. now left.
  - intros [= <-]. cbn. destruct (PyStr.truthy time) eqn:Ht; [right; eauto | now left].
  - exfalso. unfold Pandas.get in Htime.
    destruct (Pandas.select _ _ _) as [|[c|] [|c' cs]]; discriminate.
  - exfalso. unfold Pandas.get in Htime.
    destruct (Pandas.select _ _ _) as [|[c|] [|c' cs]]; discriminate.
Qed.

Lemma record_notes_witness :
  Notes pos_record = EmptyString
  \/ exists time, PyStr.truthy time = true /\ Notes pos_record = notes_label +:+ time.
Proof.
  apply (record_notes no_series statement_header [pos_row] [pos_record]).
  - vm_compute; reflexivity.
  - left; reflexivity.
Defined.
